(** * gofish: tools/generate_from_schema.py

    A shallow embedding of the schema-to-type-model translator of
    [tools/generate_from_schema.py] and the properties of its naming, typing,
    comment, classification and reference-chasing rules.

    Conventions of the embedding.
    - Python [str] values are [string]s.  The case mappings ([lower],
      [title]) are the ASCII ones; Redfish and Swordfish property names are
      ASCII, and on ASCII text the mappings below are Python's.
    - A parsed JSON document is a [json] value.  A Python [dict] is an
      association list in insertion order; [dict_get] returns the first
      binding of a key, and iterating a dict walks its keys in order.
      JSON numbers are integers.
    - A Python exception is the [Raise] outcome of the [res] monad; every
      dynamic type test the interpreter performs on a JSON value is written
      out.
    - Two library functions are taken as parameters of the development:
      [textwrap.wrap] (as [wrap]) and the conversion [str()] of a value that
      is not a string (as [py_str]). *)

From Stdlib Require Import String Ascii List ZArith Bool Lia.
Import ListNotations.

Open Scope string_scope.

(** ** Python strings *)

Module PyStr.

Definition is_upper (c : ascii) : bool :=
  (65 <=? nat_of_ascii c)%nat && (nat_of_ascii c <=? 90)%nat.

Definition is_lower (c : ascii) : bool :=
  (97 <=? nat_of_ascii c)%nat && (nat_of_ascii c <=? 122)%nat.

Definition is_cased (c : ascii) : bool := is_upper c || is_lower c.

Definition to_lower (c : ascii) : ascii :=
  if is_upper c then ascii_of_nat (nat_of_ascii c + 32) else c.

Definition to_upper (c : ascii) : ascii :=
  if is_lower c then ascii_of_nat (nat_of_ascii c - 32) else c.

(** [s.lower()] *)
Fixpoint lower (s : string) : string :=
  match s with
  | EmptyString => EmptyString
  | String c t => String (to_lower c) (lower t)
  end.

(** [s.title()]: a cased character that follows a cased character is
    lowercased, any other character is uppercased. *)
Fixpoint title_from (prev_cased : bool) (s : string) : string :=
  match s with
  | EmptyString => EmptyString
  | String c t =>
      String (if prev_cased then to_lower c else to_upper c)
             (title_from (is_cased c) t)
  end.

Definition title (s : string) : string := title_from false s.

(** [sub in s] *)
Fixpoint contains (sub s : string) : bool :=
  prefix sub s ||
  match s with
  | EmptyString => false
  | String _ t => contains sub t
  end.

(** [s.find(sub)], [None] standing for -1; [s.index(sub)] raises where
    [find] has no position. *)
Fixpoint find (sub s : string) : option nat :=
  if prefix sub s then Some 0%nat
  else match s with
       | EmptyString => None
       | String _ t => option_map S (find sub t)
       end.

(** [s[n:]] *)
Fixpoint drop (n : nat) (s : string) : string :=
  match n, s with
  | O, _ => s
  | S k, EmptyString => EmptyString
  | S k, String _ t => drop k t
  end.

(** [s[:1]] *)
Definition first1 (s : string) : string :=
  match s with
  | EmptyString => EmptyString
  | String c _ => String c EmptyString
  end.

(** [s.split(sep)] for a one-character separator. *)
Fixpoint split (sep : ascii) (s : string) : list string :=
  match s with
  | EmptyString => [EmptyString]
  | String c t =>
      if Ascii.eqb c sep then EmptyString :: split sep t
      else match split sep t with
           | h :: r => String c h :: r
           | [] => [String c EmptyString]
           end
  end.

(** [parts[0]] and [parts[-1]] of a split, which is never empty. *)
Definition head (l : list string) : string := hd EmptyString l.
Definition last (l : list string) : string := List.last l EmptyString.

(** [s.replace(old, new)] for a non-empty [old]: every occurrence, left to
    right, without overlap.  [skip] counts the characters of a match that
    are still to be passed over. *)
Fixpoint replace_from (skip : nat) (old new s : string) : string :=
  match s with
  | EmptyString => EmptyString
  | String c t =>
      match skip with
      | S k => replace_from k old new t
      | O =>
          if prefix old s
          then new ++ replace_from (String.length old - 1) old new t
          else String c (replace_from 0 old new t)
      end
  end.

Definition replace (old new s : string) : string := replace_from 0 old new s.

(** [a > b] on strings: lexicographic on character codes. *)
Definition gt (a b : string) : bool :=
  match String.compare a b with
  | Gt => true
  | _ => false
  end.

(** ['\n'.join(lines)] *)
Definition newline : string := String "010"%char EmptyString.
Definition dquote : string := String "034"%char EmptyString.

Definition join_lines (lines : list string) : string := String.concat newline lines.

End PyStr.

(** ** JSON values and the dynamic operations of the interpreter *)

#[warnings="-register-all"]
Inductive json : Type :=
| JNull
| JBool (b : bool)
| JNum (n : Z)
| JStr (s : string)
| JArr (l : list json)
| JObj (m : list (string * json)).

Inductive exn : Type :=
| TypeError | AttributeError | KeyError | ValueError | IndexError.

Inductive res (A : Type) : Type :=
| Ok (a : A)
| Raise (e : exn).

Arguments Ok {A} a.
Arguments Raise {A} e.

Definition bind {A B : Type} (r : res A) (k : A -> res B) : res B :=
  match r with
  | Ok a => k a
  | Raise e => Raise e
  end.

Notation "x <- r ;; k" := (bind r (fun x => k))
  (at level 61, r at next level, right associativity).

(** A [for] loop whose body may raise: the accumulator is threaded through
    the items in order and the first exception ends the loop. *)
Fixpoint for_each {A S : Type} (body : S -> A -> res S) (items : list A) (s : S)
  : res S :=
  match items with
  | [] => Ok s
  | x :: rest => s' <- body s x ;; for_each body rest s'
  end.

Module Py.

(** [d[k]] on a dict, as an option. *)
Fixpoint dict_get {A : Type} (k : string) (m : list (string * A)) : option A :=
  match m with
  | [] => None
  | (k', v) :: rest => if String.eqb k k' then Some v else dict_get k rest
  end.

(** [k in d] on a dict. *)
Definition dict_has {A : Type} (k : string) (m : list (string * A)) : bool :=
  match dict_get k m with
  | Some _ => true
  | None => false
  end.

Definition keys {A : Type} (m : list (string * A)) : list string := map fst m.

(** [bool(v)] *)
Definition truthy (v : json) : bool :=
  match v with
  | JNull => false
  | JBool b => b
  | JNum n => negb (n =? 0)%Z
  | JStr s => negb (s =? "")
  | JArr l => match l with [] => false | _ => true end
  | JObj m => match m with [] => false | _ => true end
  end.

(** [v == s] for a string literal [s]. *)
Definition is_str (s : string) (v : json) : bool :=
  match v with
  | JStr t => s =? t
  | _ => false
  end.

(** [v.get(k, default)]: only a dict has the method. *)
Definition get (v : json) (k : string) (default : json) : res json :=
  match v with
  | JObj m => Ok (match dict_get k m with Some x => x | None => default end)
  | _ => Raise AttributeError
  end.

(** [s in v] for a string [s]: substring of a string, element of a list,
    key of a dict. *)
Definition contains (s : string) (v : json) : res bool :=
  match v with
  | JStr t => Ok (PyStr.contains s t)
  | JArr l => Ok (existsb (is_str s) l)
  | JObj m => Ok (dict_has s m)
  | _ => Raise TypeError
  end.

(** [for x in v]: the items the loop visits. *)
Definition iter (v : json) : res (list json) :=
  match v with
  | JArr l => Ok l
  | JStr s => Ok (map (fun c => JStr (String c EmptyString)) (list_ascii_of_string s))
  | JObj m => Ok (map JStr (keys m))
  | _ => Raise TypeError
  end.

(** [l[i]] on a sequence: a negative index counts from the end. *)
Definition seq_index {A : Type} (l : list A) (i : Z) : res A :=
  let n := Z.of_nat (List.length l) in
  let j := if (i <? 0)%Z then (n + i)%Z else i in
  if (j <? 0)%Z then Raise IndexError
  else match nth_error l (Z.to_nat j) with
       | Some x => Ok x
       | None => Raise IndexError
       end.

(** [v[k]] *)
Definition getitem (v k : json) : res json :=
  match v with
  | JObj m =>
      match k with
      | JStr s => match dict_get s m with Some x => Ok x | None => Raise KeyError end
      | JArr _ | JObj _ => Raise TypeError
      | _ => Raise KeyError
      end
  | JArr l =>
      match k with
      | JNum i => seq_index l i
      | JBool b => seq_index l (if b then 1 else 0)%Z
      | _ => Raise TypeError
      end
  | JStr s =>
      let chars := map (fun c => JStr (String c EmptyString)) (list_ascii_of_string s) in
      match k with
      | JNum i => seq_index chars i
      | JBool b => seq_index chars (if b then 1 else 0)%Z
      | _ => Raise TypeError
      end
  | _ => Raise TypeError
  end.

(** [d.get(k, default)] on a dict [d] for a key [k] of any type: a list or
    a dict is not hashable; JSON keys are strings, so no other key is
    found. *)
Definition dict_get_any (m : list (string * json)) (k default : json) : res json :=
  match k with
  | JStr s => Ok (match dict_get s m with Some x => x | None => default end)
  | JArr _ | JObj _ => Raise TypeError
  | _ => Ok default
  end.

(** [v.split('/')[-1]]: only a string has the method. *)
Definition split_last (sep : ascii) (v : json) : res json :=
  match v with
  | JStr s => Ok (JStr (PyStr.last (PyStr.split sep s)))
  | _ => Raise AttributeError
  end.

(** [v.split('#')[0]] *)
Definition split_head (sep : ascii) (v : json) : res string :=
  match v with
  | JStr s => Ok (PyStr.head (PyStr.split sep s))
  | _ => Raise AttributeError
  end.

(** [s + v] for a string literal [s]. *)
Definition str_add (s : string) (v : json) : res json :=
  match v with
  | JStr t => Ok (JStr (s ++ t))
  | _ => Raise TypeError
  end.

End Py.

(** ** The module's tables *)

Definition REDFISH_SCHEMA_BASE : string := "http://redfish.dmtf.org/schemas/v1/".
Definition SWORDFISH_SCHEMA_BASE : string :=
  "http://redfish.dmtf.org/schemas/swordfish/v1/".

Definition COMMON_NAME_CHANGES : list (string * string) :=
  [ ("Oem", "OEM");
    ("Id", "ID") ].

Definition COMMON_DESC : list (string * string) :=
  [ ("Description", "Description provides a description of this resource.");
    ("Id", "ID uniquely identifies the resource.");
    ("Name", "Name is the name of the resource or array element.");
    ("@odata.context", "ODataContext is the odata context.");
    ("@odata.etag", "ODataEtag is the odata etag.");
    ("@odata.id", "ODataID is the odata identifier.");
    ("@odata.type", "ODataType is the odata type.");
    ("Identifier", "Identifier shall be unique within the managed ecosystem.") ].

(** ** The intermediate model *)

Record attr : Type := mk_attr
  { attr_name : string;
    attr_type : json;
    attr_description : string }.

Record class_info : Type := mk_class
  { class_name : string;
    class_description : string;
    class_attrs : list attr }.

Record member : Type := mk_member
  { member_name : json;
    member_description : string }.

Record enum_info : Type := mk_enum
  { enum_name : string;
    enum_description : string;
    enum_members : list member }.

Record params : Type := mk_params
  { object_name : string;
    classes : list class_info;
    enums : list enum_info;
    package : string }.

(** ** The translator *)

Section Translator.

(** [textwrap.wrap(text)] with its default width. *)
Variable wrap : string -> list string.

(** [str(v)] for a value [v] that is not a string. *)
Variable py_str : json -> string.

(** What ['%s'] prints for a value. *)
Definition format_s (v : json) : string :=
  match v with
  | JStr s => s
  | _ => py_str v
  end.

(** ['\n'.join([('// %s' % l) for l in lines])] *)
Definition comment_lines (lines : list string) : string :=
  PyStr.join_lines (map (fun l => "// " ++ l) lines).

(** The first index of the string [s] in a list, for [list.index]. *)
Fixpoint list_find (s : string) (l : list json) : option nat :=
  match l with
  | [] => None
  | x :: rest => if Py.is_str s x then Some 0%nat else option_map S (list_find s rest)
  end.

Definition _format_comment (name : string) (description : json)
    (cutpoint add : string) : res string :=
  match Py.dict_get name COMMON_DESC with
  | Some curated => Ok ("// " ++ curated)
  | None =>
      present <- Py.contains cutpoint description ;;
      let cutpoint := if negb present then "" else cutpoint in
      match description with
      | JStr d =>
          match PyStr.find cutpoint d with
          | Some i => Ok (comment_lines (wrap (name ++ add ++ " " ++ PyStr.drop i d)))
          | None => Raise ValueError
          end
      | JArr l =>
          match list_find cutpoint l with
          | Some i =>
              Ok (comment_lines (wrap (name ++ add ++ " " ++ format_s (JArr (skipn i l)))))
          | None => Raise ValueError
          end
      | _ => Raise AttributeError
      end
  end.

Definition _get_desc (obj : json) : res json :=
  desc <- Py.get obj "longDescription" JNull ;;
  if negb (Py.truthy desc) then Py.get obj "description" (JStr "")
  else Ok desc.

(** One round of the loop over a union [type] list (lines 79-87). *)
Definition pick_kind (result kind : json) : json :=
  if Py.is_str "null" kind then result
  else if Py.is_str "integer" kind || Py.is_str "number" kind then JStr "int"
  else if Py.is_str "boolean" kind then JStr "bool"
  else kind.

(** One round of the loop over the [anyOf] alternatives (lines 89-91). *)
Definition pick_ref (result kind : json) : res json :=
  has <- Py.contains "$ref" kind ;;
  if has then (r <- Py.getitem kind (JStr "$ref") ;; Py.split_last "/" r)
  else Ok result.

(** The [if]/[elif] chain of [_get_type] (lines 68-95). *)
Definition resolve (name : string) (obj tipe anyof : json) : res json :=
  let result := JStr "string" in
  if PyStr.contains "count" (PyStr.lower name) then Ok (JStr "int")
  else if name =? "Status" then Ok (JStr "common.Status")
  else if name =? "Identifier" then Ok (JStr "common.Identifier")
  else if name =? "Description" then Ok (JStr "string")
  else if Py.is_str "object" tipe then Ok (JStr name)
  else match tipe with
       | JArr kinds => Ok (fold_left pick_kind kinds result)
       | _ =>
           match anyof with
           | JArr alternatives => for_each pick_ref alternatives result
           | _ =>
               items <- Py.get obj "items" (JObj []) ;;
               has <- Py.contains "$ref" items ;;
               if has then
                 items <- Py.getitem obj (JStr "items") ;;
                 r <- Py.getitem items (JStr "$ref") ;;
                 Py.split_last "/" r
               else if (PyStr.first1 name =? PyStr.lower (PyStr.first1 name))
                       && negb (PyStr.contains "odata" (PyStr.lower name))
               then Ok (JStr "common.Link")
               else Ok result
           end
       end.

(** The serialization tag ['%s `json:"%s"`' % (result, name)]. *)
Definition json_tag (result : json) (name : string) : string :=
  format_s result ++ " `json:" ++ PyStr.dquote ++ name ++ PyStr.dquote ++ "`".

(** The two steps after the chain (lines 97-101). *)
Definition postprocess (name : string) (tipe result : json) : res json :=
  result <- (if Py.is_str "array" tipe then Py.str_add "[]" result else Ok result) ;;
  if PyStr.contains "odata" name || Py.dict_has name COMMON_NAME_CHANGES
  then Ok (JStr (json_tag result name))
  else Ok result.

(** [obj.get('anyOf') or obj.get('items', {}).get('anyOf')] (line 67). *)
Definition get_anyof (obj : json) : res json :=
  a <- Py.get obj "anyOf" JNull ;;
  if Py.truthy a then Ok a
  else (items <- Py.get obj "items" (JObj []) ;; Py.get items "anyOf" JNull).

Definition _get_type (name : string) (obj : json) : res json :=
  tipe <- Py.get obj "type" JNull ;;
  anyof <- get_anyof obj ;;
  result <- resolve name obj tipe anyof ;;
  postprocess name tipe result.

(** The identifier of an attribute (lines 119-127 of [_add_object]). *)
Definition normalize (prop : string) : string :=
  let name :=
    match Py.dict_get prop COMMON_NAME_CHANGES with
    | Some changed => changed
    | None => prop
    end in
  if PyStr.contains "@odata" prop then
    let props := PyStr.split "." prop in
    let replacement := if PyStr.contains "count" (PyStr.last props) then "" else "OData" in
    PyStr.replace "@odata" replacement (PyStr.head props) ++ PyStr.title (PyStr.last props)
  else name.

(** The attribute built for a property that is kept (lines 119-130). *)
Definition make_attr (prop : string) (prawp : json) : res attr :=
  let name := normalize prop in
  type <- _get_type prop prawp ;;
  desc <- _get_desc prawp ;;
  description <- _format_comment prop desc "used" " is" ;;
  Ok (mk_attr name type description).

(** One round of the loop over the properties (lines 114-131).  A property
    that is not a string reaches ['@odata' in prop] only as a number or a
    boolean, where the test raises. *)
Definition add_property (obj : json) (attrs : list attr) (prop : json)
  : res (list attr) :=
  if Py.is_str "Name" prop || Py.is_str "Id" prop then Ok attrs
  else
    properties <- Py.getitem obj (JStr "properties") ;;
    prawp <- Py.getitem properties prop ;;
    deprecated <- Py.get prawp "deprecated" JNull ;;
    if Py.truthy deprecated then Ok attrs
    else match prop with
         | JStr p => a <- make_attr p prawp ;; Ok (attrs ++ [a])%list
         | _ => Raise TypeError
         end.

Definition with_class (p : params) (c : class_info) : params :=
  mk_params (object_name p) (classes p ++ [c])%list (enums p) (package p).

Definition with_enum (p : params) (e : enum_info) : params :=
  mk_params (object_name p) (classes p) (enums p ++ [e])%list (package p).

Definition _add_object (p : params) (name : string) (obj : json) : res params :=
  desc <- _get_desc obj ;;
  description <- _format_comment name desc "used" " is" ;;
  properties <- Py.get obj "properties" (JArr []) ;;
  props <- Py.iter properties ;;
  attrs <- for_each (add_property obj) props [] ;;
  Ok (with_class p (mk_class name description attrs)).

(** One round of the loop over the enum literals (lines 143-150). *)
Definition add_member (name : string) (enum : json) (members : list member)
    (en : json) : res (list member) :=
  longs <- Py.get enum "enumLongDescriptions" (JObj []) ;;
  long <- (match longs with
           | JObj m => Py.dict_get_any m en JNull
           | _ => Raise AttributeError
           end) ;;
  desc <- (if Py.truthy long then
             longs <- Py.get enum "enumLongDescriptions" (JObj []) ;;
             match longs with
             | JObj m => Py.dict_get_any m en JNull
             | _ => Raise AttributeError
             end
           else
             shorts <- Py.get enum "enumDescriptions" (JObj []) ;;
             match shorts with
             | JObj m => Py.dict_get_any m en (JStr "")
             | _ => Raise AttributeError
             end) ;;
  description <- _format_comment (format_s en ++ name) desc "shall" "" ;;
  Ok (members ++ [mk_member en description])%list.

Definition _add_enum (p : params) (name : string) (enum : json) : res params :=
  desc <- _get_desc enum ;;
  description <- _format_comment name desc "used" " is" ;;
  literals <- Py.get enum "enum" (JArr []) ;;
  ens <- Py.iter literals ;;
  members <- for_each (add_member name enum) ens [] ;;
  Ok (with_enum p (mk_enum name description members)).

(** ['target' in properties and 'title' in properties] (line 214). *)
Definition is_action_binding (properties : json) : res bool :=
  target <- Py.contains "target" properties ;;
  if target then Py.contains "title" properties else Ok false.

(** One round of the loop over the definitions (lines 209-219);
    [definitions] is [object_data['definitions']], a dict. *)
Definition classify_definition (definitions : list (string * json)) (p : params)
    (name : string) : res params :=
  if name =? "Actions" then Ok p
  else
    definition <- Py.getitem (JObj definitions) (JStr name) ;;
    type <- Py.get definition "type" JNull ;;
    if Py.is_str "object" type then
      properties <- Py.get definition "properties" (JStr "") ;;
      skip <- is_action_binding properties ;;
      if negb skip then _add_object p name definition else Ok p
    else
      enum <- Py.get definition "enum" JNull ;;
      if Py.truthy enum then _add_enum p name definition
      else Ok p.

(** The classification loop of [main] (lines 206-219) over the definitions
    of the concrete schema document. *)
Definition classify (object type : string) (definitions : list (string * json))
  : res params :=
  for_each (classify_definition definitions) (Py.keys definitions)
           (mk_params object [] [] type).

(** The first request's address (lines 177-180); [--type] admits the two
    families only. *)
Definition schema_url (type object : string) : string :=
  if type =? "redfish" then REDFISH_SCHEMA_BASE ++ object ++ ".json"
  else SWORDFISH_SCHEMA_BASE ++ object ++ ".json".

(** One round of the loop over the [anyOf] references (lines 197-202). *)
Definition chase_ref (url : string) (ref : json) : res string :=
  reflink <- Py.get ref "$ref" (JStr "") ;;
  idref <- Py.contains "idRef" reflink ;;
  if idref then Ok url
  else
    refurl <- Py.split_head "#" reflink ;;
    if PyStr.gt refurl url then Ok refurl else Ok url.

(** The loop over the definitions of the stub document (lines 193-203):
    it stops at the first definition named as the object. *)
Fixpoint chase (base_data : json) (object : string) (classdefs : list json)
    (url : string) : res string :=
  match classdefs with
  | [] => Ok url
  | classdef :: rest =>
      if Py.is_str object classdef then
        definitions <- Py.getitem base_data (JStr "definitions") ;;
        definition <- Py.getitem definitions classdef ;;
        refs <- Py.get definition "anyOf" (JArr []) ;;
        refs <- Py.iter refs ;;
        for_each chase_ref refs url
      else chase base_data object rest url
  end.

Definition resolve_canonical_url (url : string) (base_data : json) (object : string)
  : res string :=
  definitions <- Py.get base_data "definitions" (JArr []) ;;
  classdefs <- Py.iter definitions ;;
  chase base_data object classdefs url.

End Translator.

(** ** The rules as the specification words them *)

(** [c in s] for one character. *)
Fixpoint has_char (c : ascii) (s : string) : bool :=
  match s with
  | EmptyString => false
  | String a t => Ascii.eqb a c || has_char c t
  end.

(** The text the OData marker contributes: nothing when the last segment
    contains "count", the literal "OData" otherwise. *)
Definition spec_prefix (prop : string) : string :=
  if PyStr.contains "count" (PyStr.last (PyStr.split "." prop)) then "" else "OData".

(** The identifier of an OData-marked name in the specification's words:
    the prefix followed by the title-cased last segment. *)
Definition spec_normalize (prop : string) : string :=
  spec_prefix prop ++ PyStr.title (PyStr.last (PyStr.split "." prop)).

(** No rule on the property name alone applies: the name does not contain
    "count" in any case and is none of "Status", "Identifier" and
    "Description". *)
Definition no_name_rule (name : string) : bool :=
  negb (PyStr.contains "count" (PyStr.lower name))
  && negb (name =? "Status") && negb (name =? "Identifier")
  && negb (name =? "Description").

Definition is_list (v : json) : bool :=
  match v with
  | JArr _ => true
  | _ => false
  end.

(** The target type of one member of a union [type] list. *)
Definition kind_type (kind : json) : json :=
  if Py.is_str "integer" kind || Py.is_str "number" kind then JStr "int"
  else if Py.is_str "boolean" kind then JStr "bool"
  else kind.

Definition non_null (kind : json) : bool := negb (Py.is_str "null" kind).

Definition first_non_null (kinds : list json) : option json := find non_null kinds.

Fixpoint last_non_null (kinds : list json) : option json :=
  match kinds with
  | [] => None
  | kind :: rest =>
      match last_non_null rest with
      | Some k => Some k
      | None => if non_null kind then Some kind else None
      end
  end.

(** The type of a union list in the specification's words: that of its
    first non-null member. *)
Definition spec_union_type (kinds : list json) : json :=
  match first_non_null kinds with
  | Some k => kind_type k
  | None => JStr "string"
  end.

(** The reference of an [anyOf] alternative, when it is an object that
    holds a string under "$ref". *)
Definition ref_of (alternative : json) : option string :=
  match alternative with
  | JObj m =>
      match Py.dict_get "$ref" m with
      | Some (JStr r) => Some r
      | _ => None
      end
  | _ => None
  end.

(** An alternative of the shape the schemas use: an object whose "$ref",
    if any, is a string. *)
Definition ref_alternative (alternative : json) : bool :=
  match alternative with
  | JObj m =>
      match Py.dict_get "$ref" m with
      | Some (JStr _) | None => true
      | Some _ => false
      end
  | _ => false
  end.

Fixpoint first_ref (alternatives : list json) : option string :=
  match alternatives with
  | [] => None
  | a :: rest =>
      match ref_of a with
      | Some r => Some r
      | None => first_ref rest
      end
  end.

Fixpoint last_ref (alternatives : list json) : option string :=
  match alternatives with
  | [] => None
  | a :: rest =>
      match last_ref rest with
      | Some r => Some r
      | None => ref_of a
      end
  end.

(** The final path segment of a reference. *)
Definition ref_name (r : string) : string := PyStr.last (PyStr.split "/" r).

(** The node declares the list [alternatives] under "anyOf", itself or,
    when it has no non-empty "anyOf" of its own, inside its "items". *)
Definition declares_anyof (obj : json) (alternatives : list json) : Prop :=
  exists m,
    obj = JObj m /\
    ((Py.dict_get "anyOf" m = Some (JArr alternatives) /\ alternatives <> [])
     \/ (match Py.dict_get "anyOf" m with
         | Some own => Py.truthy own = false
         | None => True
         end
         /\ exists items,
             Py.dict_get "items" m = Some (JObj items)
             /\ Py.dict_get "anyOf" items = Some (JArr alternatives))).

(** The serialization tag is due: the name contains "odata" or is in the
    override table. *)
Definition tagged (name : string) : bool :=
  PyStr.contains "odata" name || Py.dict_has name COMMON_NAME_CHANGES.

(** A resolved type name after the two closing steps: a sequence of it
    when the declared type is "array", then the serialization tag when it
    is due. *)
Definition decorated (name : string) (tipe : json) (base : string) : string :=
  let result := if Py.is_str "array" tipe then "[]" ++ base else base in
  if tagged name
  then result ++ " `json:" ++ PyStr.dquote ++ name ++ PyStr.dquote ++ "`"
  else result.

(** The first character of the name is an uppercase letter; otherwise
    lowercasing it changes nothing, and the empty name has none. *)
Definition starts_uppercase (name : string) : bool :=
  match name with
  | EmptyString => false
  | String c _ => PyStr.is_upper c
  end.

(** The description of a node in the specification's words: its
    "longDescription" when present and not empty, otherwise its
    "description", otherwise the empty string.  Empty is Python's notion:
    null, false, 0, the empty string, list and dict. *)
Definition spec_desc (m : list (string * json)) : json :=
  let short :=
    match Py.dict_get "description" m with
    | Some d => d
    | None => JStr ""
    end in
  match Py.dict_get "longDescription" m with
  | Some long => if Py.truthy long then long else short
  | None => short
  end.

(** A property node is marked deprecated. *)
Definition is_deprecated (prawp : json) : bool :=
  match prawp with
  | JObj m =>
      match Py.dict_get "deprecated" m with
      | Some flag => Py.truthy flag
      | None => false
      end
  | _ => false
  end.

(** The properties of a class that become attributes: all but "Name",
    "Id" and the deprecated ones. *)
Definition kept (properties : list (string * json)) (prop : string) : bool :=
  negb ((prop =? "Name") || (prop =? "Id"))
  && match Py.dict_get prop properties with
     | Some prawp => negb (is_deprecated prawp)
     | None => false
     end.

(** The node of a property of a definition whose "properties" is an
    object. *)
Definition property_node (definition : list (string * json)) (prop : string)
  : option json :=
  match Py.dict_get "properties" definition with
  | Some (JObj properties) => Py.dict_get prop properties
  | _ => None
  end.

(** The properties of a definition that become attributes, in the order of
    the schema; none when "properties" is not an object. *)
Definition source_properties (definition : list (string * json)) : list string :=
  match Py.dict_get "properties" definition with
  | Some (JObj properties) => filter (kept properties) (Py.keys properties)
  | _ => []
  end.

Section ClassifierSpec.

Variable wrap : string -> list string.
Variable py_str : json -> string.

(** The attribute [a] is the one built for the property [prop]. *)
Definition made_from (definition : list (string * json)) (a : attr) (prop : string)
  : Prop :=
  exists prawp,
    property_node definition prop = Some prawp
    /\ make_attr wrap py_str prop prawp = Ok a.

(** The attributes of the class of a definition: one per kept property, in
    order. *)
Definition attrs_from (definition : list (string * json)) (attrs : list attr) : Prop :=
  Forall2 (made_from definition) attrs (source_properties definition).

(** The class [c] of a classified document comes from a definition of that
    name which is object-typed, is not named "Actions" and is not an action
    binding; its description and attributes are those of the definition. *)
Definition class_from (definitions : list (string * json)) (c : class_info) : Prop :=
  class_name c <> "Actions" /\
  exists definition properties,
    Py.dict_get (class_name c) definitions = Some (JObj definition)
    /\ Py.dict_get "type" definition = Some (JStr "object")
    /\ Py.get (JObj definition) "properties" (JStr "") = Ok properties
    /\ is_action_binding properties = Ok false
    /\ _format_comment wrap py_str (class_name c) (spec_desc definition) "used" " is"
       = Ok (class_description c)
    /\ attrs_from definition (class_attrs c).

End ClassifierSpec.

(** The link of an [anyOf] alternative: its "$ref", the empty string when
    it has none. *)
Definition reflink_of (alternative : json) : string :=
  match ref_of alternative with
  | Some r => r
  | None => ""
  end.

(** The URL of a link: what precedes the first '#'. *)
Definition refurl_of (reflink : string) : string :=
  PyStr.head (PyStr.split "#" reflink).

(** The alternatives that count: those whose link does not contain
    "idRef", each by its URL. *)
Definition candidates (alternatives : list json) : list string :=
  map (fun a => refurl_of (reflink_of a))
      (filter (fun a => negb (PyStr.contains "idRef" (reflink_of a))) alternatives).

(** The greater of two strings, the first one on a tie. *)
Definition max_str (a b : string) : string := if PyStr.gt b a then b else a.

(** The canonical URL in the specification's words: the greatest candidate,
    and the base URL when there is none. *)
Definition spec_canonical (url : string) (alternatives : list json) : string :=
  match candidates alternatives with
  | [] => url
  | c :: rest => fold_left max_str rest c
  end.

(** ** Sample inputs *)

(** Instances of the two library parameters for running the translator on
    samples: a wrap that keeps the text on one line, and a conversion that
    prints a placeholder. *)
Definition one_line (text : string) : list string := [text].
Definition str_placeholder (v : json) : string := "<value>".

Definition union_node : json :=
  JObj [("type", JArr [JStr "integer"; JStr "string"; JStr "null"])].

Definition two_refs : list json :=
  [ JObj [("$ref", JStr "http://redfish.dmtf.org/schemas/v1/Foo.json#/definitions/Foo")];
    JObj [("$ref", JStr "http://redfish.dmtf.org/schemas/v1/Bar.json#/definitions/Bar")];
    JObj [("type", JStr "null")] ].

Definition anyof_node : json := JObj [("anyOf", JArr two_refs)].

Definition items_anyof_node : json :=
  JObj [("type", JStr "array"); ("items", JObj [("anyOf", JArr two_refs)])].

Definition integer_node : json := JObj [("type", JStr "integer")].

Definition array_node : json := JObj [("type", JStr "array")].

Definition widget : list (string * json) :=
  [ ("type", JStr "object");
    ("longDescription", JStr "This type shall be used to represent a widget.");
    ("description", JStr "A widget.");
    ("properties",
      JObj [ ("Status", JObj []);
             ("Count", JObj [("type", JStr "integer");
                             ("description", JStr "The number of parts.")]);
             ("Name", JObj [("type", JStr "string")]);
             ("Id", JObj [("type", JStr "string")]);
             ("Old", JObj [("type", JStr "string"); ("deprecated", JStr "Use New.")]);
             ("Members@odata.count", JObj [("type", JStr "integer")]) ]) ].

Definition sample_definitions : list (string * json) :=
  [ ("Widget", JObj widget);
    ("Actions", JObj [("type", JStr "object"); ("properties", JObj [])]);
    ("Reset", JObj [("type", JStr "object");
                    ("properties", JObj [("target", JObj []); ("title", JObj [])])]);
    ("PowerState", JObj [("enum", JArr [JStr "On"; JStr "Off"]);
                         ("enumDescriptions",
                           JObj [("On", JStr "It shall mean powered on.")])]) ].

(** The address of the stub of the Redfish object "Thing". *)
Definition thing_url : string := Eval cbv in schema_url "redfish" "Thing".

Definition thing_alternatives : list json :=
  [ JObj [("$ref", JStr "http://redfish.dmtf.org/schemas/v1/odata.v4_0_3.json#/definitions/idRef")];
    JObj [("$ref", JStr "http://redfish.dmtf.org/schemas/v1/v1_2_0/Thing.json#/definitions/Thing")];
    JObj [("$ref", JStr "http://redfish.dmtf.org/schemas/v1/v1_10_0/Thing.json#/definitions/Thing")] ].

Definition thing_definition : list (string * json) := [("anyOf", JArr thing_alternatives)].
Definition thing_definitions : list (string * json) := [("Thing", JObj thing_definition)].
Definition thing_stub : list (string * json) := [("definitions", JObj thing_definitions)].

(** A stub whose only reference sorts before the address of the stub. *)
Definition local_alternatives : list json :=
  [ JObj [("$ref", JStr "/redfish/v1/Schemas/Thing.v1_2_0.json#/definitions/Thing")] ].

Definition local_stub : list (string * json) :=
  [("definitions", JObj [("Thing", JObj [("anyOf", JArr local_alternatives)])])].

(** ** Notions for the properties of the remaining code *)

Definition is_object (v : json) : bool :=
  match v with
  | JObj _ => true
  | _ => false
  end.

Definition is_string (v : json) : bool :=
  match v with
  | JStr _ => true
  | _ => false
  end.

(** A list of [anyOf] alternatives of the schemas' shape, when the key is
    present. *)
Definition shaped_anyof (declared : option json) : bool :=
  match declared with
  | None => true
  | Some (JArr alternatives) => forallb ref_alternative alternatives
  | Some _ => false
  end.

(** A property node of the shape of the schemas, for the type resolver: a
    union [type] holds strings only, "anyOf" is a list of alternatives, on
    the node and inside "items", and "items" is an object whose "$ref", if
    any, is a string. *)
Definition well_shaped (m : list (string * json)) : bool :=
  match Py.dict_get "type" m with
  | Some (JArr kinds) => forallb is_string kinds
  | _ => true
  end
  && shaped_anyof (Py.dict_get "anyOf" m)
  && match Py.dict_get "items" m with
     | None => true
     | Some (JObj items) =>
         shaped_anyof (Py.dict_get "anyOf" items)
         && match Py.dict_get "$ref" items with
            | None | Some (JStr _) => true
            | Some _ => false
            end
     | Some _ => false
     end.

(** The value a node declares under a key, [default] when it has none. *)
Definition declared (k : string) (m : list (string * json)) (default : json) : json :=
  match Py.dict_get k m with
  | Some x => x
  | None => default
  end.

(** The text of an enum literal in one of the two description tables of an
    enum node, [default] when the table or the entry is missing. *)
Definition described (table : string) (enum : list (string * json)) (literal : string)
    (default : json) : json :=
  match Py.dict_get table enum with
  | Some (JObj d) => declared literal d default
  | _ => default
  end.

(** The description of an enum literal: the long one when it is not empty,
    otherwise the short one, otherwise the empty string. *)
Definition member_text (enum : list (string * json)) (literal : string) : json :=
  let long := described "enumLongDescriptions" enum literal JNull in
  if Py.truthy long then long else described "enumDescriptions" enum literal (JStr "").

(** The definition named [name] yields a class: it is not "Actions", it is
    an object of declared type "object" and it is not an action binding. *)
Definition yields_class (definitions : list (string * json)) (name : string) : bool :=
  negb (name =? "Actions")
  && match Py.dict_get name definitions with
     | Some (JObj definition) =>
         Py.is_str "object" (declared "type" definition JNull)
         && match is_action_binding (declared "properties" definition (JStr "")) with
            | Ok binding => negb binding
            | Raise _ => false
            end
     | _ => false
     end.

(** The definition named [name] yields an enumeration: it is not "Actions",
    its declared type is not "object" and it declares a non-empty "enum". *)
Definition yields_enum (definitions : list (string * json)) (name : string) : bool :=
  negb (name =? "Actions")
  && match Py.dict_get name definitions with
     | Some (JObj definition) =>
         negb (Py.is_str "object" (declared "type" definition JNull))
         && Py.truthy (declared "enum" definition JNull)
     | _ => false
     end.

(** A property node on which the translator cannot fail: well-shaped for
    the resolver and described by a string. *)
Definition shaped_property (prawp : json) : bool :=
  match prawp with
  | JObj m => well_shaped m && is_string (spec_desc m)
  | _ => false
  end.

(** An object definition on which the translator cannot fail: it is
    described by a string and its "properties", if any, is an object whose
    nodes, other than those of "Name" and "Id", are shaped. *)
Definition shaped_definition (m : list (string * json)) : bool :=
  is_string (spec_desc m)
  && match Py.dict_get "properties" m with
     | None => true
     | Some (JObj properties) =>
         forallb (fun prop =>
                    (prop =? "Name") || (prop =? "Id")
                    || match Py.dict_get prop properties with
                       | Some prawp => shaped_property prawp
                       | None => false
                       end)
                 (Py.keys properties)
     | Some _ => false
     end.

(** A description table of an enum node: missing, or an object of strings. *)
Definition shaped_table (table : option json) : bool :=
  match table with
  | None => true
  | Some (JObj d) => forallb (fun kv => is_string (snd kv)) d
  | Some _ => false
  end.

(** An enum definition on which the translator cannot fail: it is described
    by a string, its literals are a list of strings and its description
    tables are shaped. *)
Definition shaped_enum (m : list (string * json)) : bool :=
  is_string (spec_desc m)
  && match Py.dict_get "enum" m with
     | Some (JArr literals) => forallb is_string literals
     | _ => false
     end
  && shaped_table (Py.dict_get "enumLongDescriptions" m)
  && shaped_table (Py.dict_get "enumDescriptions" m).

(** A definition on which the classification cannot fail. *)
Definition shaped_entry (definitions : list (string * json)) (name : string) : bool :=
  (name =? "Actions")
  || match Py.dict_get name definitions with
     | Some (JObj m) =>
         if Py.is_str "object" (declared "type" m JNull) then shaped_definition m
         else negb (Py.truthy (declared "enum" m JNull)) || shaped_enum m
     | _ => false
     end.

Definition shaped_document (definitions : list (string * json)) : bool :=
  forallb (shaped_entry definitions) (Py.keys definitions).

(** ** Further sample inputs *)

Definition items_ref_node : list (string * json) :=
  [ ("type", JStr "array");
    ("items", JObj [("$ref", JStr "http://redfish.dmtf.org/schemas/v1/Foo.json#/definitions/Foo")]) ].

Definition tuple_items_node : list (string * json) :=
  [ ("type", JStr "array"); ("items", JArr [JObj [("type", JStr "string")]]) ].

Definition string_node : json := JObj [("type", JStr "string")].

Definition object_node : json := JObj [("type", JStr "object")].

Definition null_described : list (string * json) :=
  [ ("type", JStr "object"); ("description", JNull) ].

Definition power_state : list (string * json) :=
  [ ("enum", JArr [JStr "On"; JStr "Off"]);
    ("enumLongDescriptions", JObj [("Off", JStr "This value shall mean powered off.")]);
    ("enumDescriptions", JObj [("On", JStr "It shall mean powered on.");
                               ("Off", JStr "Off.")]) ].

(** The stub of "Thing" with its alternatives in the reverse order. *)
Definition thing_stub_reversed : list (string * json) :=
  [("definitions", JObj [("Thing", JObj [("anyOf", JArr (rev thing_alternatives))])])].

Definition other_stub : list (string * json) :=
  [("definitions", JObj [("Other", JObj [])])].

(** A node that holds nothing but a reference of its own. *)
Definition direct_ref_node : list (string * json) :=
  [("$ref", JStr "http://redfish.dmtf.org/schemas/v1/Resource.json#/definitions/Location")].

(** ** The string operations on sample text *)

Example lower_ex : PyStr.lower "Members@odata.Count" = "members@odata.count".
Proof. reflexivity. Qed.

Example title_ex : PyStr.title "nextLink" = "Nextlink".
Proof. reflexivity. Qed.

Example title_ex2 : PyStr.title "@odata" = "@Odata".
Proof. reflexivity. Qed.

Example split_ex : PyStr.split "." "a.b..c" = ["a"; "b"; ""; "c"].
Proof. reflexivity. Qed.

Example replace_ex : PyStr.replace "@odata" "OData" "x@odata@odatay" = "xODataODatay".
Proof. reflexivity. Qed.

Example find_ex : PyStr.find "used" "This is used to" = Some 8%nat.
Proof. reflexivity. Qed.

Example gt_ex : PyStr.gt "v1_2_0" "v1_10_0" = true.
Proof. reflexivity. Qed.

(** ** Reasoning about the monad and the loops *)

Lemma bind_ok {A B : Type} (r : res A) (k : A -> res B) (b : B) :
  bind r k = Ok b -> exists a, r = Ok a /\ k a = Ok b.
Proof.
  destruct r as [a | e]; simpl; intros H.
  - exists a; split; [reflexivity | exact H].
  - discriminate H.
Qed.

Ltac bind_inv H :=
  let a := fresh "v" in
  let Ha := fresh "E" in
  apply bind_ok in H; destruct H as [a [Ha H]].

(** An invariant of the accumulator survives a loop that ends normally. *)
Lemma for_each_invariant {A S : Type} (P : S -> Prop) (body : S -> A -> res S) :
  forall items,
    (forall s x s', In x items -> P s -> body s x = Ok s' -> P s') ->
    forall s s', P s -> for_each body items s = Ok s' -> P s'.
Proof.
  induction items as [| x rest IH]; simpl; intros step s s' Hs Hrun.
  - inversion Hrun; subst; exact Hs.
  - bind_inv Hrun.
    apply (IH (fun s0 y s1 Hy => step s0 y s1 (or_intror Hy)) v s'); [| exact Hrun].
    apply (step s x v); [left; reflexivity | exact Hs | exact E].
Qed.

(** ** Facts about Python strings *)

Lemma find_of_contains (sub s : string) :
  PyStr.contains sub s = true -> exists i, PyStr.find sub s = Some i.
Proof.
  induction s as [| c t IH]; cbn [PyStr.contains PyStr.find]; intros H.
  - rewrite orb_false_r in H. rewrite H. now exists 0%nat.
  - destruct (prefix sub (String c t)).
    + now exists 0%nat.
    + destruct (IH H) as [i Hi]. rewrite Hi. now exists (S i).
Qed.

Lemma find_empty (s : string) : PyStr.find "" s = Some 0%nat.
Proof. destruct s; reflexivity. Qed.

(** [find] returns a position where the text splits into what is before
    the match and a tail that starts with the match. *)
Lemma find_cut (sub s : string) (i : nat) :
  PyStr.find sub s = Some i ->
  prefix sub (PyStr.drop i s) = true /\ exists pre, s = pre ++ PyStr.drop i s.
Proof.
  revert i; induction s as [| c t IH]; intros i; cbn [PyStr.find].
  - destruct (prefix sub "") eqn:Hp; [| discriminate].
    intros H; inversion H; subst; simpl. split; [exact Hp | now exists ""].
  - destruct (prefix sub (String c t)) eqn:Hp.
    + intros H; inversion H; subst; simpl. split; [exact Hp | now exists ""].
    + destruct (PyStr.find sub t) as [j |] eqn:Hf; simpl; [| discriminate].
      intros H; inversion H; subst; simpl.
      destruct (IH j eq_refl) as [Hpre [pre Hsplit]].
      split; [exact Hpre |].
      exists (String c pre). simpl. now rewrite <- Hsplit.
Qed.


Section Comments.

Variable wrap : string -> list string.
Variable py_str : json -> string.

(** ** CommentSynthesizer *)

(** C8. The comment synthesizer returns a comment for every name, prefix,
    cutpoint and description string: the curated sentence for a curated name,
    and otherwise the wrapped sentence "<name><prefix> <rest>", where <rest>
    is the description from the cutpoint onward, or the whole description
    when the cutpoint does not occur.  On the empty description the sentence
    is "<name><prefix> ". *)
Theorem C8_format_comment_total :
  forall (name description cutpoint add : string),
    (exists comment,
        _format_comment wrap py_str name (JStr description) cutpoint add = Ok comment /\
        match Py.dict_get name COMMON_DESC with
        | Some curated => comment = "// " ++ curated
        | None =>
            exists before rest,
              description = before ++ rest /\
              (if PyStr.contains cutpoint description
               then prefix cutpoint rest = true
               else rest = description) /\
              comment = comment_lines (wrap (name ++ add ++ " " ++ rest))
        end) /\
    match Py.dict_get name COMMON_DESC with
    | Some curated =>
        _format_comment wrap py_str name (JStr "") cutpoint add = Ok ("// " ++ curated)
    | None =>
        _format_comment wrap py_str name (JStr "") cutpoint add
        = Ok (comment_lines (wrap (name ++ add ++ " ")))
    end.
Proof.
  intros name description cutpoint add. split.
  - unfold _format_comment.
    destruct (Py.dict_get name COMMON_DESC) as [curated |].
    + exists ("// " ++ curated). split; reflexivity.
    + cbn [Py.contains bind].
      destruct (PyStr.contains cutpoint description) eqn:Hin; cbn [negb].
      * destruct (find_of_contains _ _ Hin) as [i Hi]. rewrite Hi.
        destruct (find_cut _ _ _ Hi) as [Hpre [before Hsplit]].
        eexists; split; [reflexivity |].
        exists before, (PyStr.drop i description). repeat split; assumption.
      * rewrite find_empty. eexists; split; [reflexivity |].
        exists "", description. repeat split.
  - unfold _format_comment.
    destruct (Py.dict_get name COMMON_DESC) as [curated |]; [reflexivity |].
    cbn [Py.contains bind].
    destruct (PyStr.contains cutpoint "") eqn:Hin; cbn [negb].
    + destruct (find_of_contains _ _ Hin) as [i Hi]. rewrite Hi.
      destruct i; reflexivity.
    + reflexivity.
Qed.

End Comments.

(** ** NameNormalizer *)

Lemma split_without_separator (sep : ascii) (s : string) :
  has_char sep s = false -> PyStr.split sep s = [s].
Proof.
  induction s as [| c t IH]; simpl; intros H; [reflexivity |].
  apply orb_false_iff in H. destruct H as [Hc Ht].
  rewrite Hc, (IH Ht). reflexivity.
Qed.

Lemma split_marker_segment (seg : string) :
  has_char "." seg = false ->
  PyStr.split "." ("@odata." ++ seg) = ["@odata"; seg].
Proof.
  intros H. cbn. rewrite (split_without_separator _ _ H). reflexivity.
Qed.

(** C1 (as amended). For a property name containing "@odata" the identifier
    is the first segment of the name split on '.', with every "@odata" in it
    replaced by the prefix (nothing when the last segment contains "count",
    "OData" otherwise), followed by the last segment in Python's title
    case, which capitalises the first letter of a run of letters and
    lowercases the others.  For a name "@odata.<segment>" this is the prefix
    followed by the title-cased segment; "@odata.nextLink" gives
    "ODataNextlink" and "@odata.count" gives "Count". *)
Theorem C1_odata_identifier :
  forall prop : string,
    PyStr.contains "@odata" prop = true ->
    normalize prop
    = PyStr.replace "@odata" (spec_prefix prop) (PyStr.head (PyStr.split "." prop))
      ++ PyStr.title (PyStr.last (PyStr.split "." prop))
    /\ (forall seg, prop = "@odata." ++ seg -> has_char "." seg = false ->
        normalize prop = spec_normalize prop
        /\ spec_normalize prop
           = (if PyStr.contains "count" seg then "" else "OData") ++ PyStr.title seg)
    /\ normalize "@odata.nextLink" = "ODataNextlink"
    /\ normalize "@odata.count" = "Count".
Proof.
  intros prop Hmark. split; [| split; [| split; reflexivity]].
  - unfold normalize, spec_prefix. rewrite Hmark. reflexivity.
  - intros seg -> Hdot.
    unfold normalize, spec_normalize, spec_prefix.
    rewrite Hmark, (split_marker_segment _ Hdot).
    cbn [PyStr.last List.last PyStr.head hd].
    destruct (PyStr.contains "count" seg); split; reflexivity.
Qed.

(** ** TypeResolver *)

Section Types.

Variable py_str : json -> string.

Lemma no_name_rule_inv (name : string) :
  no_name_rule name = true ->
  PyStr.contains "count" (PyStr.lower name) = false
  /\ (name =? "Status") = false /\ (name =? "Identifier") = false
  /\ (name =? "Description") = false.
Proof.
  unfold no_name_rule. intros H.
  repeat (apply andb_true_iff in H; destruct H as [H ?]).
  repeat split; now apply negb_true_iff.
Qed.

Lemma postprocess_string (name : string) (tipe : json) (base : string) :
  postprocess py_str name tipe (JStr base) = Ok (JStr (decorated name tipe base)).
Proof.
  unfold postprocess, decorated, tagged, json_tag.
  destruct (Py.is_str "array" tipe); cbn [Py.str_add bind format_s];
    destruct (PyStr.contains "odata" name || Py.dict_has name COMMON_NAME_CHANGES);
    reflexivity.
Qed.

Lemma fold_pick_kind (kinds : list json) (result : json) :
  fold_left pick_kind kinds result
  = match last_non_null kinds with
    | Some k => kind_type k
    | None => result
    end.
Proof.
  revert result; induction kinds as [| kind rest IH]; intros result; simpl.
  - reflexivity.
  - rewrite IH. destruct (last_non_null rest); [reflexivity |].
    unfold pick_kind, non_null, kind_type.
    destruct (Py.is_str "null" kind); reflexivity.
Qed.

(** C2 (as amended). When the declared [type] is a list and no rule on the
    name applies, the resolver walks the whole list, so the type is that of
    the last non-null member: integer or number gives "int", boolean gives
    "bool", another member gives the member itself, and a list without a
    non-null member leaves "string".  The serialization tag is appended when
    due. *)
Theorem C2_union_type_last_member :
  forall (name : string) (obj anyof : json) (kinds : list json),
    Py.get obj "type" JNull = Ok (JArr kinds) ->
    get_anyof obj = Ok anyof ->
    no_name_rule name = true ->
    let picked :=
      match last_non_null kinds with
      | Some k => kind_type k
      | None => JStr "string"
      end in
    _get_type py_str name obj
    = Ok (if tagged name then JStr (json_tag py_str picked name) else picked).
Proof.
  intros name obj anyof kinds Htype Hany Hname picked.
  destruct (no_name_rule_inv _ Hname) as [Hc [Hs [Hi Hd]]].
  unfold _get_type. rewrite Htype, Hany. cbn [bind].
  unfold resolve. rewrite Hc, Hs, Hi, Hd. cbn [Py.is_str bind].
  rewrite fold_pick_kind. fold picked.
  unfold postprocess, tagged. cbn [Py.is_str bind].
  destruct (PyStr.contains "odata" name || Py.dict_has name COMMON_NAME_CHANGES);
    reflexivity.
Qed.

Lemma get_anyof_declared (obj : json) (alternatives : list json) :
  declares_anyof obj alternatives -> get_anyof obj = Ok (JArr alternatives).
Proof.
  intros [m [-> [[Hown Hne] | [Hown [items [Hitems Hin]]]]]];
    unfold get_anyof; cbn [Py.get bind].
  - rewrite Hown. destruct alternatives; [now elim Hne | reflexivity].
  - destruct (Py.dict_get "anyOf" m) as [own |].
    + rewrite Hown, Hitems. cbn [Py.get]. now rewrite Hin.
    + cbn [Py.truthy]. rewrite Hitems. cbn [Py.get]. now rewrite Hin.
Qed.

Lemma for_each_pick_ref (alternatives : list json) (s : string) :
  forallb ref_alternative alternatives = true ->
  for_each pick_ref alternatives (JStr s)
  = Ok (JStr match last_ref alternatives with
             | Some r => ref_name r
             | None => s
             end).
Proof.
  revert s; induction alternatives as [| a rest IH]; intros s; simpl.
  - reflexivity.
  - intros H. apply andb_true_iff in H. destruct H as [Ha Hrest].
    destruct a as [| | | | | m]; try discriminate Ha.
    unfold pick_ref, ref_of, ref_alternative in *.
    cbn [Py.contains Py.getitem bind]. unfold Py.dict_has.
    destruct (Py.dict_get "$ref" m) as [[| | | r | |] |]; try discriminate Ha;
      cbn [bind Py.split_last]; rewrite (IH _ Hrest);
      destruct (last_ref rest); reflexivity.
Qed.

(** C3 (as amended). When the node declares an [anyOf] list, itself or
    inside [items], its alternatives are objects whose "$ref" is a string,
    and no rule of higher precedence applies, the resolver walks all the
    alternatives, so the type name is the final path segment of the last
    reference found, and "string" when no alternative has a reference; the
    name is then wrapped as a sequence when the declared type is "array"
    and tagged when due. *)
Theorem C3_anyof_last_reference :
  forall (name : string) (obj tipe : json) (alternatives : list json),
    Py.get obj "type" JNull = Ok tipe ->
    declares_anyof obj alternatives ->
    no_name_rule name = true ->
    Py.is_str "object" tipe = false ->
    is_list tipe = false ->
    forallb ref_alternative alternatives = true ->
    _get_type py_str name obj
    = Ok (JStr (decorated name tipe
                  match last_ref alternatives with
                  | Some r => ref_name r
                  | None => "string"
                  end)).
Proof.
  intros name obj tipe alternatives Htype Hany Hname Hobj Hlist Hrefs.
  destruct (no_name_rule_inv _ Hname) as [Hc [Hs [Hi Hd]]].
  unfold _get_type. rewrite Htype, (get_anyof_declared _ _ Hany). cbn [bind].
  unfold resolve. rewrite Hc, Hs, Hi, Hd, Hobj.
  destruct tipe; try discriminate Hlist;
    rewrite (for_each_pick_ref _ _ Hrefs); cbn [bind];
    apply postprocess_string.
Qed.

Lemma override_starts_uppercase (name : string) :
  Py.dict_has name COMMON_NAME_CHANGES = true -> starts_uppercase name = true.
Proof.
  unfold Py.dict_has, COMMON_NAME_CHANGES. cbn [Py.dict_get].
  destruct (String.eqb_spec name "Oem") as [-> |]; [reflexivity |].
  destruct (String.eqb_spec name "Id") as [-> |]; [reflexivity | discriminate].
Qed.

Lemma override_has_no_count (name : string) :
  Py.dict_has name COMMON_NAME_CHANGES = true ->
  PyStr.contains "count" (PyStr.lower name) = false.
Proof.
  unfold Py.dict_has, COMMON_NAME_CHANGES. cbn [Py.dict_get].
  destruct (String.eqb_spec name "Oem") as [-> |]; [reflexivity |].
  destruct (String.eqb_spec name "Id") as [-> |]; [reflexivity | discriminate].
Qed.

(** C4 (as amended). For a property name that contains "count" in any case,
    on a node where the lookup of [anyOf] does not fail, the resolved type is
    "int" whatever the node declares; the closing steps still apply to it, so
    the result is "int" itself only when the declared type is not "array" and
    the name does not contain "odata", "[]int" for a declared "array", and
    carries the serialization tag for a name such as "Members@odata.count". *)
Theorem C4_count_is_int :
  forall (name : string) (obj tipe anyof : json),
    Py.get obj "type" JNull = Ok tipe ->
    get_anyof obj = Ok anyof ->
    PyStr.contains "count" (PyStr.lower name) = true ->
    _get_type py_str name obj = Ok (JStr (decorated name tipe "int"))
    /\ (Py.is_str "array" tipe = false -> PyStr.contains "odata" name = false ->
        _get_type py_str name obj = Ok (JStr "int"))
    /\ (Py.is_str "array" tipe = true -> PyStr.contains "odata" name = false ->
        _get_type py_str name obj = Ok (JStr "[]int")).
Proof.
  intros name obj tipe anyof Htype Hany Hcount.
  assert (Hget : _get_type py_str name obj = Ok (JStr (decorated name tipe "int"))).
  { unfold _get_type. rewrite Htype, Hany. cbn [bind].
    unfold resolve. rewrite Hcount. cbn [bind]. apply postprocess_string. }
  assert (Hover : Py.dict_has name COMMON_NAME_CHANGES = false).
  { destruct (Py.dict_has name COMMON_NAME_CHANGES) eqn:E; [| reflexivity].
    rewrite (override_has_no_count _ E) in Hcount. discriminate Hcount. }
  split; [exact Hget |].
  split; intros Harr Hodata; rewrite Hget; unfold decorated, tagged;
    rewrite Harr, Hodata, Hover; reflexivity.
Qed.

Lemma to_lower_fixed (c : ascii) :
  PyStr.is_upper c = false -> PyStr.to_lower c = c.
Proof. unfold PyStr.to_lower. now intros ->. Qed.

Lemma to_lower_moves (c : ascii) :
  PyStr.is_upper c = true -> PyStr.to_lower c <> c.
Proof.
  unfold PyStr.to_lower. intros H. rewrite H. intros Heq.
  unfold PyStr.is_upper in H. apply andb_true_iff in H. destruct H as [_ Hle].
  apply Nat.leb_le in Hle.
  apply (f_equal nat_of_ascii) in Heq.
  rewrite nat_ascii_embedding in Heq; lia.
Qed.

(** The test [name[:1] == name[:1].lower()] holds exactly of the names
    that do not start with an uppercase letter. *)
Lemma first_character_test (name : string) :
  (PyStr.first1 name =? PyStr.lower (PyStr.first1 name))
  = negb (starts_uppercase name).
Proof.
  destruct name as [| c t]; [reflexivity |].
  cbn [PyStr.first1 PyStr.lower starts_uppercase].
  destruct (PyStr.is_upper c) eqn:Hup; cbn [negb].
  - apply String.eqb_neq. intros Heq. inversion Heq as [Hc].
    symmetry in Hc. now apply to_lower_moves in Hc.
  - rewrite (to_lower_fixed _ Hup). apply String.eqb_refl.
Qed.

Lemma prefix_lower (sub s : string) :
  prefix sub s = true -> prefix (PyStr.lower sub) (PyStr.lower s) = true.
Proof.
  revert sub; induction s as [| c t IH]; intros [| a sub']; simpl; try easy.
  destruct (ascii_dec a c) as [-> |]; [| discriminate].
  intros H. destruct (ascii_dec (PyStr.to_lower c) (PyStr.to_lower c)); [| easy].
  now apply IH.
Qed.

Lemma contains_lower (sub s : string) :
  PyStr.contains sub s = true ->
  PyStr.contains (PyStr.lower sub) (PyStr.lower s) = true.
Proof.
  induction s as [| c t IH]; cbn [PyStr.contains PyStr.lower]; intros H.
  - rewrite orb_false_r in H. apply prefix_lower in H.
    cbn [PyStr.lower] in H. now rewrite H.
  - apply orb_true_iff in H. destruct H as [H | H].
    + apply prefix_lower in H. cbn [PyStr.lower] in H. now rewrite H.
    + rewrite (IH H). apply orb_true_r.
Qed.

(** C10. When no earlier rule applies and the name does not contain "odata"
    in any case, the fallback types the property as the shared Link type for
    every name that does not start with an uppercase letter: the empty name
    and a name that starts with a digit or another character without case
    are included.  A declared type "array" makes it a sequence of links. *)
Theorem C10_link_fallback :
  forall (name : string) (obj tipe anyof items : json),
    Py.get obj "type" JNull = Ok tipe ->
    get_anyof obj = Ok anyof ->
    Py.get obj "items" (JObj []) = Ok items ->
    no_name_rule name = true ->
    Py.is_str "object" tipe = false ->
    is_list tipe = false ->
    is_list anyof = false ->
    Py.contains "$ref" items = Ok false ->
    PyStr.contains "odata" (PyStr.lower name) = false ->
    starts_uppercase name = false ->
    resolve name obj tipe anyof = Ok (JStr "common.Link")
    /\ _get_type py_str name obj
       = Ok (JStr (if Py.is_str "array" tipe then "[]common.Link" else "common.Link")).
Proof.
  intros name obj tipe anyof items Htype Hany Hitems Hname Hobj Hlist Hany_list
         Href Hodata Hup.
  destruct (no_name_rule_inv _ Hname) as [Hc [Hs [Hi Hd]]].
  assert (Hres : resolve name obj tipe anyof = Ok (JStr "common.Link")).
  { unfold resolve. rewrite Hc, Hs, Hi, Hd, Hobj.
    destruct tipe; try discriminate Hlist;
      destruct anyof; try discriminate Hany_list;
      rewrite Hitems; cbn [bind]; rewrite Href; cbn [bind];
      rewrite first_character_test, Hup, Hodata; reflexivity. }
  split; [exact Hres |].
  unfold _get_type. rewrite Htype, Hany. cbn [bind]. rewrite Hres. cbn [bind].
  rewrite postprocess_string. unfold decorated, tagged.
  assert (Hplain : PyStr.contains "odata" name = false).
  { destruct (PyStr.contains "odata" name) eqn:E; [| reflexivity].
    apply contains_lower in E. cbn [PyStr.lower] in E.
    change (PyStr.contains "odata" (PyStr.lower name) = true) in E.
    rewrite Hodata in E. discriminate E. }
  assert (Hover : Py.dict_has name COMMON_NAME_CHANGES = false).
  { destruct (Py.dict_has name COMMON_NAME_CHANGES) eqn:E; [| reflexivity].
    rewrite (override_starts_uppercase _ E) in Hup. discriminate Hup. }
  rewrite Hplain, Hover. destruct (Py.is_str "array" tipe); reflexivity.
Qed.

End Types.

(** ** DefinitionClassifier *)

Section Classifier.

Variable wrap : string -> list string.
Variable py_str : json -> string.

Lemma get_ok (v : json) (k : string) (default x : json) :
  Py.get v k default = Ok x ->
  exists m, v = JObj m
            /\ x = match Py.dict_get k m with Some y => y | None => default end.
Proof.
  destruct v; simpl; intros H; try discriminate H.
  inversion H; subst. now eexists.
Qed.

Lemma get_desc_spec (obj desc : json) :
  _get_desc obj = Ok desc -> exists m, obj = JObj m /\ desc = spec_desc m.
Proof.
  destruct obj as [| | | | | m]; try discriminate.
  unfold _get_desc, spec_desc. cbn [Py.get bind]. intros H.
  exists m. split; [reflexivity |].
  destruct (Py.dict_get "longDescription" m) as [long |]; cbn [Py.truthy negb] in H.
  - destruct (Py.truthy long); cbn [negb] in H; now inversion H.
  - now inversion H.
Qed.

Lemma make_attr_ok (prop : string) (prawp : json) (a : attr) :
  make_attr wrap py_str prop prawp = Ok a ->
  exists m,
    prawp = JObj m
    /\ attr_name a = normalize prop
    /\ _get_type py_str prop prawp = Ok (attr_type a)
    /\ _format_comment wrap py_str prop (spec_desc m) "used" " is"
       = Ok (attr_description a).
Proof.
  unfold make_attr. intros H.
  bind_inv H. bind_inv H. bind_inv H. inversion H; subst; clear H. simpl.
  destruct (get_desc_spec _ _ E0) as [m [-> ->]].
  exists m. repeat split; assumption.
Qed.

(** A round of the loop over the properties leaves the attributes as they
    are or appends the attribute of a string-named, kept property. *)
Lemma add_property_ok (obj : json) (attrs attrs' : list attr) (prop : json) :
  add_property wrap py_str obj attrs prop = Ok attrs' ->
  attrs' = attrs
  \/ exists p properties prawp a,
      prop = JStr p
      /\ Py.getitem obj (JStr "properties") = Ok properties
      /\ Py.getitem properties (JStr p) = Ok prawp
      /\ make_attr wrap py_str p prawp = Ok a
      /\ attrs' = (attrs ++ [a])%list.
Proof.
  unfold add_property. intros H.
  destruct (Py.is_str "Name" prop || Py.is_str "Id" prop).
  - left. now inversion H.
  - bind_inv H. bind_inv H. bind_inv H.
    destruct (Py.truthy v1).
    + left. now inversion H.
    + destruct prop as [| | | p | |]; try discriminate H.
      bind_inv H. inversion H; subst.
      right. exists p, v, v0, v2. repeat split; assumption.
Qed.

(** The loop over the keys of a "properties" object builds the attributes
    of the kept properties, in order. *)
Lemma properties_loop (definition properties : list (string * json)) :
  Py.dict_get "properties" definition = Some (JObj properties) ->
  forall (props : list string) (attrs attrs' : list attr),
    for_each (add_property wrap py_str (JObj definition)) (map JStr props) attrs
    = Ok attrs' ->
    exists new,
      attrs' = (attrs ++ new)%list
      /\ Forall2 (made_from wrap py_str definition) new (filter (kept properties) props).
Proof.
  intros Hprops. induction props as [| prop rest IH]; intros attrs attrs' Hrun.
  - inversion Hrun; subst. exists []. split; [now rewrite app_nil_r | constructor].
  - cbn [map for_each] in Hrun. bind_inv Hrun.
    unfold add_property in E. cbn [Py.is_str Py.getitem] in E.
    cbn [filter]. unfold kept at 1.
    rewrite (String.eqb_sym prop "Name"), (String.eqb_sym prop "Id").
    destruct (("Name" =? prop) || ("Id" =? prop)); cbn [negb andb].
    + inversion E; subst. now apply IH.
    + rewrite Hprops in E. cbn [bind Py.getitem] in E.
      destruct (Py.dict_get prop properties) as [prawp |] eqn:Hget; [| discriminate E].
      cbn [bind] in E. bind_inv E.
      destruct (get_ok _ _ _ _ E0) as [m [-> Hflag]].
      assert (Hdep : is_deprecated (JObj m) = Py.truthy v0).
      { rewrite Hflag. unfold is_deprecated.
        destruct (Py.dict_get "deprecated" m); reflexivity. }
      rewrite Hdep. destruct (Py.truthy v0); cbn [negb].
      * inversion E; subst. now apply IH.
      * bind_inv E. inversion E; subst.
        destruct (IH _ _ Hrun) as [new [-> Hnew]].
        exists (v1 :: new). split; [now rewrite <- app_assoc |].
        constructor; [| exact Hnew].
        exists (JObj m). split; [| exact E1].
        unfold property_node. now rewrite Hprops.
Qed.

(** Over a "properties" that is not an object the loop appends nothing. *)
Lemma other_properties_loop (obj : json) (items : list json) (attrs attrs' : list attr) :
  (forall properties, Py.getitem obj (JStr "properties") <> Ok (JObj properties)) ->
  for_each (add_property wrap py_str obj) items attrs = Ok attrs' ->
  attrs' = attrs.
Proof.
  intros Hnot.
  apply (for_each_invariant (fun s => s = attrs) (add_property wrap py_str obj) items);
    [| reflexivity].
  intros s x s' _ -> Hstep.
  destruct (add_property_ok _ _ _ _ Hstep)
    as [-> | [p [properties [prawp [a [-> [Hget [Hitem _]]]]]]]]; [reflexivity |].
  destruct properties as [| | | | | pm]; try discriminate Hitem.
  now elim (Hnot pm).
Qed.

Lemma add_object_ok (p p' : params) (name : string) (obj : json) :
  _add_object wrap py_str p name obj = Ok p' ->
  exists definition description attrs,
    obj = JObj definition
    /\ p' = with_class p (mk_class name description attrs)
    /\ _format_comment wrap py_str name (spec_desc definition) "used" " is"
       = Ok description
    /\ attrs_from wrap py_str definition attrs.
Proof.
  unfold _add_object. intros H.
  bind_inv H. bind_inv H. bind_inv H. bind_inv H. bind_inv H.
  inversion H; subst; clear H.
  destruct (get_desc_spec _ _ E) as [definition [-> ->]].
  exists definition, v0, v3. repeat split; [exact E0 |].
  unfold attrs_from, source_properties.
  cbn [Py.get] in E1. inversion E1; subst; clear E1.
  assert (Hother : (forall pm, Py.dict_get "properties" definition <> Some (JObj pm)) ->
                   v3 = []).
  { intros Hno. apply (other_properties_loop (JObj definition) v2 [] v3); [| exact E3].
    intros pm. cbn [Py.getitem].
    destruct (Py.dict_get "properties" definition) eqn:Hq; [| discriminate].
    intros Heq. inversion Heq; subst. now elim (Hno pm). }
  destruct (Py.dict_get "properties" definition) as [[| | | | | properties] |] eqn:Hp;
    try discriminate E2;
    try (rewrite Hother; [constructor | intros pm; discriminate]).
  cbn [Py.iter] in E2. inversion E2; subst.
  destruct (properties_loop _ _ Hp _ _ _ E3) as [new [-> Hnew]]. exact Hnew.
Qed.

Lemma add_enum_classes (p p' : params) (name : string) (enum : json) :
  _add_enum wrap py_str p name enum = Ok p' -> classes p' = classes p.
Proof.
  unfold _add_enum. intros H.
  bind_inv H. bind_inv H. bind_inv H. bind_inv H. bind_inv H.
  now inversion H.
Qed.

Lemma is_str_eq (s : string) (v : json) : Py.is_str s v = true -> v = JStr s.
Proof.
  destruct v; simpl; try discriminate.
  intros H. apply String.eqb_eq in H. now subst.
Qed.

(** A round of the classification loop keeps the classes well-formed. *)
Lemma classify_definition_ok (definitions : list (string * json)) (p p' : params)
    (name : string) :
  classify_definition wrap py_str definitions p name = Ok p' ->
  Forall (class_from wrap py_str definitions) (classes p) ->
  Forall (class_from wrap py_str definitions) (classes p').
Proof.
  unfold classify_definition. intros H Hp.
  destruct (name =? "Actions") eqn:Hname; [now inversion H; subst |].
  bind_inv H. bind_inv H.
  cbn [Py.getitem] in E.
  destruct (Py.dict_get name definitions) as [definition |] eqn:Hdef; [| discriminate E].
  inversion E; subst; clear E.
  destruct (get_ok _ _ _ _ E0) as [dm [-> Htype]].
  destruct (Py.is_str "object" v0) eqn:Hobj.
  - bind_inv H. bind_inv H.
    destruct v1; cbn [negb] in H; [now inversion H; subst |].
    destruct (add_object_ok _ _ _ _ H) as [dm' [description [attrs [Heq [-> [Hdesc Hattrs]]]]]].
    inversion Heq; subst dm'. cbn [with_class classes].
    apply Forall_app. split; [exact Hp |].
    constructor; [| constructor].
    split; [cbn [class_name]; now apply String.eqb_neq |].
    exists dm, v. cbn [class_name class_description class_attrs].
    repeat split; try assumption.
    apply is_str_eq in Hobj. rewrite Hobj in Htype.
    destruct (Py.dict_get "type" dm); [now subst | discriminate Htype].
  - bind_inv H. destruct (Py.truthy v).
    + now rewrite (add_enum_classes _ _ _ _ H).
    + now inversion H; subst.
Qed.

(** Every class of a classified document comes from a definition that the
    loop keeps. *)
Lemma classify_classes (object type : string) (definitions : list (string * json))
    (p : params) :
  classify wrap py_str object type definitions = Ok p ->
  Forall (class_from wrap py_str definitions) (classes p).
Proof.
  unfold classify.
  apply (for_each_invariant
           (fun s => Forall (class_from wrap py_str definitions) (classes s))).
  - intros s x s' _ Hs Hstep. exact (classify_definition_ok _ _ _ _ Hstep Hs).
  - constructor.
Qed.

(** C6. A classified document has no class for a definition named "Actions"
    and none for an object-typed definition whose properties include both
    "target" and "title"; a run that raises produces no document at all. *)
Theorem C6_no_action_classes :
  forall (object type : string) (definitions : list (string * json)) (p : params),
    classify wrap py_str object type definitions = Ok p ->
    (forall c, In c (classes p) -> class_name c <> "Actions")
    /\ (forall name definition properties,
          Py.dict_get name definitions = Some (JObj definition) ->
          Py.dict_get "type" definition = Some (JStr "object") ->
          Py.dict_get "properties" definition = Some (JObj properties) ->
          Py.dict_has "target" properties = true ->
          Py.dict_has "title" properties = true ->
          forall c, In c (classes p) -> class_name c <> name).
Proof.
  intros object type definitions p Hrun.
  pose proof (classify_classes _ _ _ _ Hrun) as Hall.
  rewrite Forall_forall in Hall. split.
  - intros c Hc. exact (proj1 (Hall c Hc)).
  - intros name definition properties Hdef Htype Hprops Htarget Htitle c Hc Hname.
    destruct (Hall c Hc) as [_ [dm [ps [Hdm [_ [Hps [Hskip _]]]]]]].
    rewrite Hname, Hdef in Hdm. inversion Hdm; subst dm.
    cbn [Py.get] in Hps. rewrite Hprops in Hps. inversion Hps; subst ps.
    unfold is_action_binding in Hskip. cbn [Py.contains bind] in Hskip.
    rewrite Htarget, Htitle in Hskip. discriminate Hskip.
Qed.

Lemma source_properties_kept (definition : list (string * json)) :
  Forall (fun prop =>
            prop <> "Name" /\ prop <> "Id"
            /\ exists prawp, property_node definition prop = Some prawp
                             /\ is_deprecated prawp = false)
         (source_properties definition).
Proof.
  unfold source_properties, property_node.
  destruct (Py.dict_get "properties" definition) as [[| | | | | properties] |];
    try constructor.
  apply Forall_forall. intros prop Hin.
  apply filter_In in Hin. destruct Hin as [_ Hkept].
  unfold kept in Hkept. apply andb_true_iff in Hkept. destruct Hkept as [Hname Hnode].
  apply negb_true_iff, orb_false_iff in Hname. destruct Hname as [Hn Hi].
  apply String.eqb_neq in Hn, Hi.
  destruct (Py.dict_get prop properties) as [prawp |]; [| discriminate Hnode].
  repeat split; try assumption.
  exists prawp. split; [reflexivity | now apply negb_true_iff].
Qed.

(** C7. The attributes of every class of a classified document are built,
    one for one and in order, from the properties of its definition other
    than "Name", "Id" and the deprecated ones: no attribute is made for a
    property named "Name" or "Id", present and not deprecated though it be,
    nor for a property marked deprecated. *)
Theorem C7_attrs_exclude_name_id_deprecated :
  forall (object type : string) (definitions : list (string * json)) (p : params),
    classify wrap py_str object type definitions = Ok p ->
    forall c, In c (classes p) ->
      exists definition,
        Py.dict_get (class_name c) definitions = Some (JObj definition)
        /\ Forall2 (made_from wrap py_str definition) (class_attrs c)
                   (source_properties definition)
        /\ Forall (fun prop =>
                     prop <> "Name" /\ prop <> "Id"
                     /\ exists prawp, property_node definition prop = Some prawp
                                      /\ is_deprecated prawp = false)
                  (source_properties definition).
Proof.
  intros object type definitions p Hrun c Hc.
  pose proof (classify_classes _ _ _ _ Hrun) as Hall.
  rewrite Forall_forall in Hall.
  destruct (Hall c Hc) as [_ [dm [ps [Hdm [_ [_ [_ [_ Hattrs]]]]]]]].
  exists dm. split; [exact Hdm |]. split; [exact Hattrs |].
  apply source_properties_kept.
Qed.

Lemma get_desc_object (m : list (string * json)) :
  _get_desc (JObj m) = Ok (spec_desc m).
Proof.
  unfold _get_desc, spec_desc. cbn [Py.get bind].
  destruct (Py.dict_get "longDescription" m) as [long |]; cbn [Py.truthy negb].
  - destruct (Py.truthy long); reflexivity.
  - reflexivity.
Qed.

(** C9. The description handed to the comment synthesizer for a class, and
    for each of its attributes, is the one [_get_desc] returns for the node:
    its "longDescription" when present and not empty, otherwise its
    "description", otherwise the empty string. *)
Theorem C9_descriptions_prefer_long :
  forall (p p' : params) (name : string) (obj : json),
    _add_object wrap py_str p name obj = Ok p' ->
    exists definition c,
      obj = JObj definition
      /\ _get_desc obj = Ok (spec_desc definition)
      /\ classes p' = (classes p ++ [c])%list
      /\ class_name c = name
      /\ _format_comment wrap py_str name (spec_desc definition) "used" " is"
         = Ok (class_description c)
      /\ Forall (fun a =>
                   exists prop node,
                     property_node definition prop = Some (JObj node)
                     /\ _get_desc (JObj node) = Ok (spec_desc node)
                     /\ _format_comment wrap py_str prop (spec_desc node) "used" " is"
                        = Ok (attr_description a))
                (class_attrs c).
Proof.
  intros p p' name obj Hadd.
  destruct (add_object_ok _ _ _ _ Hadd) as [dm [description [attrs [-> [-> [Hdesc Hattrs]]]]]].
  exists dm, (mk_class name description attrs).
  cbn [with_class classes class_name class_description class_attrs].
  repeat split; try assumption; [apply get_desc_object |].
  unfold attrs_from in Hattrs. clear Hadd.
  induction Hattrs as [| a prop attrs' props Hmade _ IH]; [constructor |].
  constructor; [| exact IH].
  destruct Hmade as [prawp [Hnode Hmake]].
  destruct (make_attr_ok _ _ _ Hmake) as [node [-> [_ [_ Hcomment]]]].
  exists prop, node. repeat split; [exact Hnode | apply get_desc_object | exact Hcomment].
Qed.

End Classifier.

(** ** ReferenceChaser *)

Lemma ascii_compare_refl (c : ascii) : Ascii.compare c c = Eq.
Proof. unfold Ascii.compare. apply N.compare_refl. Qed.

Lemma compare_refl (s : string) : String.compare s s = Eq.
Proof.
  induction s as [| c t IH]; simpl; [reflexivity |].
  now rewrite ascii_compare_refl.
Qed.

Lemma compare_common_prefix (p a b : string) :
  String.compare (p ++ a) (p ++ b) = String.compare a b.
Proof.
  induction p as [| c t IH]; simpl; [reflexivity |].
  now rewrite ascii_compare_refl.
Qed.

(** The order [a <= b], that is [not (a > b)], is transitive. *)
Lemma compare_le_trans (a b c : string) :
  String.compare a b <> Gt -> String.compare b c <> Gt -> String.compare a c <> Gt.
Proof.
  revert b c; induction a as [| x a' IH]; intros [| y b'] [| z c']; simpl;
    try congruence.
  unfold Ascii.compare.
  destruct (N.compare_spec (N_of_ascii x) (N_of_ascii y)) as [Hxy | Hxy | Hxy];
    destruct (N.compare_spec (N_of_ascii y) (N_of_ascii z)) as [Hyz | Hyz | Hyz];
    destruct (N.compare_spec (N_of_ascii x) (N_of_ascii z)) as [Hxz | Hxz | Hxz];
    try congruence; try lia.
  apply IH.
Qed.

Lemma gt_irrefl (a : string) : PyStr.gt a a = false.
Proof. unfold PyStr.gt. now rewrite compare_refl. Qed.

Lemma gt_asym (a b : string) : PyStr.gt a b = true -> PyStr.gt b a = false.
Proof.
  unfold PyStr.gt. rewrite (String.compare_antisym b a).
  destruct (String.compare a b); simpl; congruence.
Qed.

Lemma le_trans (a b c : string) :
  PyStr.gt a b = false -> PyStr.gt b c = false -> PyStr.gt a c = false.
Proof.
  unfold PyStr.gt. intros Hab Hbc.
  assert (H : String.compare a c <> Gt).
  { apply (compare_le_trans a b c).
    - destruct (String.compare a b); congruence.
    - destruct (String.compare b c); congruence. }
  destruct (String.compare a c); congruence.
Qed.

Lemma max_str_ge_left (a b : string) : PyStr.gt a (max_str a b) = false.
Proof.
  unfold max_str. destruct (PyStr.gt b a) eqn:H.
  - now apply gt_asym.
  - apply gt_irrefl.
Qed.

Lemma max_str_ge_right (a b : string) : PyStr.gt b (max_str a b) = false.
Proof.
  unfold max_str. destruct (PyStr.gt b a) eqn:H.
  - apply gt_irrefl.
  - exact H.
Qed.

(** The running maximum ends on an element of the list or on its seed, and
    nothing in them is greater. *)
Lemma fold_max_ge_seed (l : list string) (seed : string) :
  PyStr.gt seed (fold_left max_str l seed) = false.
Proof.
  revert seed; induction l as [| x rest IH]; intros seed; simpl.
  - apply gt_irrefl.
  - apply (le_trans _ (max_str seed x)); [apply max_str_ge_left | apply IH].
Qed.

Lemma fold_max_ge_all (l : list string) (seed c : string) :
  In c l -> PyStr.gt c (fold_left max_str l seed) = false.
Proof.
  revert seed; induction l as [| x rest IH]; intros seed; simpl; [easy |].
  intros [-> | Hin].
  - apply (le_trans _ (max_str seed c)); [apply max_str_ge_right | apply fold_max_ge_seed].
  - now apply IH.
Qed.

Lemma fold_max_in (l : list string) (seed : string) :
  In (fold_left max_str l seed) (seed :: l).
Proof.
  revert seed; induction l as [| x rest IH]; intros seed; simpl.
  - now left.
  - destruct (IH (max_str seed x)) as [H | H].
    + rewrite <- H. unfold max_str. destruct (PyStr.gt x seed); auto.
    + auto.
Qed.

Lemma dict_get_in_keys {A : Type} (k : string) (m : list (string * A)) (v : A) :
  Py.dict_get k m = Some v -> In k (Py.keys m).
Proof.
  induction m as [| [k' v'] rest IH]; simpl; [discriminate |].
  destruct (String.eqb_spec k k') as [-> | _]; [now left | right; now apply IH].
Qed.

(** The loop over the definitions runs the body of the first key that is
    the object's name. *)
Lemma chase_keys (base_data : json) (object url : string) (names : list string) :
  In object names ->
  chase base_data object (map JStr names) url
  = (definitions <- Py.getitem base_data (JStr "definitions") ;;
     definition <- Py.getitem definitions (JStr object) ;;
     refs <- Py.get definition "anyOf" (JArr []) ;;
     refs <- Py.iter refs ;;
     for_each chase_ref refs url).
Proof.
  induction names as [| name rest IH]; simpl; [easy |].
  destruct (String.eqb_spec object name) as [<- | Hne]; [reflexivity |].
  intros [Heq | Hin]; [now elim Hne | now apply IH].
Qed.

(** The loop over the alternatives keeps the running maximum of the URLs
    that count, seeded with the address it starts from. *)
Lemma for_each_chase_ref (alternatives : list json) (url : string) :
  forallb ref_alternative alternatives = true ->
  for_each chase_ref alternatives url = Ok (fold_left max_str (candidates alternatives) url).
Proof.
  revert url; induction alternatives as [| a rest IH]; intros url; simpl.
  - reflexivity.
  - intros H. apply andb_true_iff in H. destruct H as [Ha Hrest].
    assert (Hstep : chase_ref url a
                    = Ok (if PyStr.contains "idRef" (reflink_of a) then url
                          else max_str url (refurl_of (reflink_of a)))).
    { destruct a as [| | | | | m]; try discriminate Ha.
      unfold chase_ref, reflink_of, ref_of, ref_alternative in *.
      cbn [Py.get bind].
      destruct (Py.dict_get "$ref" m) as [[| | | r | |] |]; try discriminate Ha;
        cbn [Py.contains bind Py.split_head];
        match goal with
        | |- context [PyStr.contains "idRef" ?s] =>
            destruct (PyStr.contains "idRef" s); [reflexivity |]
        end;
        unfold max_str, refurl_of;
        match goal with
        | |- context [PyStr.gt ?x url] => destruct (PyStr.gt x url); reflexivity
        end. }
    rewrite Hstep. cbn [bind]. unfold candidates. cbn [filter].
    destruct (PyStr.contains "idRef" (reflink_of a)); cbn [negb map fold_left];
      now rewrite (IH _ Hrest).
Qed.

(** C5 (as amended). On a stub document whose definitions hold the object
    with [anyOf] alternatives that are objects with a string "$ref" or none,
    the chaser ignores the alternatives whose reference contains "idRef"
    and returns the lexicographically greatest among the address it started
    from and the URLs of the remaining references; the starting address
    stands when no alternative qualifies and also when it is greater than all
    of them.  The order is that of the character codes, so that of two URLs
    that differ in "v1_2_0" and "v1_10_0" the first is the greater. *)
Theorem C5_canonical_url :
  forall (url object : string) (document definitions definition : list (string * json))
         (alternatives : list json),
    Py.dict_get "definitions" document = Some (JObj definitions) ->
    Py.dict_get object definitions = Some (JObj definition) ->
    Py.get (JObj definition) "anyOf" (JArr []) = Ok (JArr alternatives) ->
    forallb ref_alternative alternatives = true ->
    exists canonical,
      resolve_canonical_url url (JObj document) object = Ok canonical
      /\ canonical = fold_left max_str (candidates alternatives) url
      /\ In canonical (url :: candidates alternatives)
      /\ (forall c, In c (url :: candidates alternatives) -> PyStr.gt c canonical = false)
      /\ (candidates alternatives = [] -> canonical = url)
      /\ (forall stem, PyStr.gt (stem ++ "v1_2_0/Thing.json")
                                (stem ++ "v1_10_0/Thing.json") = true).
Proof.
  intros url object document definitions definition alternatives
         Hdefs Hobj Hany Hrefs.
  exists (fold_left max_str (candidates alternatives) url).
  split; [| split; [reflexivity | split; [apply fold_max_in | split; [| split]]]].
  - unfold resolve_canonical_url. cbn [Py.get bind]. rewrite Hdefs. cbn [Py.iter bind].
    rewrite (chase_keys _ _ _ _ (dict_get_in_keys _ _ _ Hobj)).
    cbn [Py.getitem bind]. rewrite Hdefs. cbn [Py.getitem bind]. rewrite Hobj.
    cbn [bind].
    rewrite Hany. cbn [Py.iter bind].
    apply (for_each_chase_ref _ _ Hrefs).
  - intros c [<- | Hin]; [apply fold_max_ge_seed | now apply fold_max_ge_all].
  - now intros ->.
  - intros stem. unfold PyStr.gt. now rewrite compare_common_prefix.
Qed.

(** ** The theorems on the sample inputs *)

(** The rule of C1 at the name "@odata.nextLink". *)
Lemma C1_odata_identifier_witness :
  normalize "@odata.nextLink"
  = PyStr.replace "@odata" (spec_prefix "@odata.nextLink")
      (PyStr.head (PyStr.split "." "@odata.nextLink"))
    ++ PyStr.title (PyStr.last (PyStr.split "." "@odata.nextLink")).
Proof.
  apply (C1_odata_identifier "@odata.nextLink"). reflexivity.
Defined.

(** C1 as first stated fails: the title case of "nextLink" is "Nextlink",
    and the text of the first segment around the marker is kept, so
    "Members@odata.count" becomes "MembersCount" and not "Count". *)
Lemma C1_counterexample :
  PyStr.contains "@odata" "@odata.nextLink" = true
  /\ normalize "@odata.nextLink" <> "ODataNextLink"
  /\ PyStr.contains "@odata" "Members@odata.count" = true
  /\ normalize "Members@odata.count" = "MembersCount"
  /\ normalize "Members@odata.count" <> spec_normalize "Members@odata.count".
Proof.
  repeat split; try reflexivity; vm_compute; discriminate.
Qed.

(** The rule of C2 on a union of integer, string and null: the last
    non-null member is "string". *)
Lemma C2_union_type_witness :
  _get_type str_placeholder "Foo" union_node = Ok (JStr "string").
Proof.
  exact (C2_union_type_last_member str_placeholder "Foo" union_node JNull
           [JStr "integer"; JStr "string"; JStr "null"] eq_refl eq_refl eq_refl).
Defined.

(** C2 as first stated fails: the first non-null member of the union is
    "integer", whose type is "int", and the resolver answers "string". *)
Lemma C2_counterexample :
  Py.get union_node "type" JNull
  = Ok (JArr [JStr "integer"; JStr "string"; JStr "null"])
  /\ no_name_rule "Foo" = true
  /\ spec_union_type [JStr "integer"; JStr "string"; JStr "null"] = JStr "int"
  /\ _get_type str_placeholder "Foo" union_node
     <> Ok (spec_union_type [JStr "integer"; JStr "string"; JStr "null"]).
Proof.
  repeat split; try reflexivity. vm_compute. discriminate.
Qed.

(** The rule of C3 on a sequence whose items declare two references: the
    last one names the type. *)
Lemma C3_anyof_witness :
  _get_type str_placeholder "Foo" items_anyof_node = Ok (JStr "[]Bar").
Proof.
  refine (C3_anyof_last_reference str_placeholder "Foo" items_anyof_node
            (JStr "array") two_refs eq_refl _ eq_refl eq_refl eq_refl eq_refl).
  eexists. split; [reflexivity |]. right. split; [exact I |].
  eexists. split; reflexivity.
Defined.

(** C3 as first stated fails: the first reference found ends in "Foo" and
    the resolver answers "Bar". *)
Lemma C3_counterexample :
  declares_anyof anyof_node two_refs
  /\ no_name_rule "Foo" = true
  /\ option_map ref_name (first_ref two_refs) = Some "Foo"
  /\ _get_type str_placeholder "Foo" anyof_node = Ok (JStr "Bar")
  /\ _get_type str_placeholder "Foo" anyof_node <> Ok (JStr "Foo").
Proof.
  split; [| repeat split; try reflexivity; vm_compute; discriminate].
  eexists. split; [reflexivity |]. left. split; [reflexivity | discriminate].
Qed.

(** The rule of C4 at the name "Members@odata.count". *)
Lemma C4_count_witness :
  _get_type str_placeholder "Members@odata.count" integer_node
  = Ok (JStr (decorated "Members@odata.count" (JStr "integer") "int")).
Proof.
  exact (proj1 (C4_count_is_int str_placeholder "Members@odata.count" integer_node
                  (JStr "integer") JNull eq_refl eq_refl eq_refl)).
Defined.

(** C4 as first stated fails: "Members@odata.count" is typed with the
    serialization tag, and a "Count" declared as an array is a sequence. *)
Lemma C4_counterexample :
  PyStr.contains "count" (PyStr.lower "Members@odata.count") = true
  /\ _get_type str_placeholder "Members@odata.count" integer_node
     = Ok (JStr ("int `json:" ++ PyStr.dquote ++ "Members@odata.count"
                 ++ PyStr.dquote ++ "`"))
  /\ _get_type str_placeholder "Members@odata.count" integer_node <> Ok (JStr "int")
  /\ PyStr.contains "count" (PyStr.lower "Count") = true
  /\ _get_type str_placeholder "Count" array_node = Ok (JStr "[]int")
  /\ _get_type str_placeholder "Count" array_node <> Ok (JStr "int").
Proof.
  repeat split; try reflexivity; vm_compute; discriminate.
Qed.

(** The rule of C5 on a stub with an idRef pointer and two versions: the
    idRef pointer is ignored and the version "v1_2_0" is the greatest. *)
Lemma C5_canonical_url_witness :
  resolve_canonical_url thing_url (JObj thing_stub) "Thing"
  = Ok "http://redfish.dmtf.org/schemas/v1/v1_2_0/Thing.json".
Proof.
  destruct (C5_canonical_url thing_url "Thing" thing_stub thing_definitions
              thing_definition thing_alternatives eq_refl eq_refl eq_refl eq_refl)
    as [canonical [Hrun [Hmax _]]].
  rewrite Hrun, Hmax. reflexivity.
Defined.

(** C5 as first stated fails: the only reference that counts sorts before
    the address of the stub, and the chaser keeps that address instead of
    the reference. *)
Lemma C5_counterexample :
  candidates local_alternatives = ["/redfish/v1/Schemas/Thing.v1_2_0.json"]
  /\ spec_canonical thing_url local_alternatives = "/redfish/v1/Schemas/Thing.v1_2_0.json"
  /\ resolve_canonical_url thing_url (JObj local_stub) "Thing" = Ok thing_url
  /\ resolve_canonical_url thing_url (JObj local_stub) "Thing"
     <> Ok (spec_canonical thing_url local_alternatives).
Proof.
  repeat split; try reflexivity. vm_compute. discriminate.
Qed.

(** The rule of C6 on the sample document, which defines "Actions" and the
    action binding "Reset": its only class is "Widget". *)
Lemma C6_no_action_classes_witness :
  exists p,
    classify one_line str_placeholder "Widget" "swordfish" sample_definitions = Ok p
    /\ map class_name (classes p) = ["Widget"]
    /\ (forall c, In c (classes p) -> class_name c <> "Actions")
    /\ (forall c, In c (classes p) -> class_name c <> "Reset").
Proof.
  eexists. split; [vm_compute; reflexivity |]. split; [reflexivity |].
  destruct (C6_no_action_classes one_line str_placeholder "Widget" "swordfish"
              sample_definitions _ eq_refl) as [Hactions Hbinding].
  split; [exact Hactions |].
  exact (Hbinding "Reset" _ _ eq_refl eq_refl eq_refl eq_refl eq_refl).
Defined.

(** The rule of C7 on the sample document: the class "Widget" has the
    attributes of "Status", "Count" and "Members@odata.count", and none of
    "Name", "Id" and the deprecated "Old". *)
Lemma C7_attrs_witness :
  exists p,
    classify one_line str_placeholder "Widget" "swordfish" sample_definitions = Ok p
    /\ source_properties widget = ["Status"; "Count"; "Members@odata.count"]
    /\ forall c, In c (classes p) ->
         exists definition,
           Py.dict_get (class_name c) sample_definitions = Some (JObj definition)
           /\ Forall2 (made_from one_line str_placeholder definition) (class_attrs c)
                      (source_properties definition)
           /\ Forall (fun prop =>
                        prop <> "Name" /\ prop <> "Id"
                        /\ exists prawp, property_node definition prop = Some prawp
                                         /\ is_deprecated prawp = false)
                     (source_properties definition).
Proof.
  eexists. split; [vm_compute; reflexivity |]. split; [reflexivity |].
  exact (C7_attrs_exclude_name_id_deprecated one_line str_placeholder "Widget"
           "swordfish" sample_definitions _ eq_refl).
Defined.

(** The rule of C9 on the sample class, which has both descriptions: the
    comment of the class is made from the long one. *)
Lemma C9_descriptions_witness :
  exists p',
    _add_object one_line str_placeholder (mk_params "Widget" [] [] "swordfish")
      "Widget" (JObj widget) = Ok p'
    /\ spec_desc widget = JStr "This type shall be used to represent a widget."
    /\ exists definition c,
         JObj widget = JObj definition
         /\ _get_desc (JObj widget) = Ok (spec_desc definition)
         /\ classes p' = ([] ++ [c])%list
         /\ class_name c = "Widget"
         /\ _format_comment one_line str_placeholder "Widget" (spec_desc definition)
              "used" " is" = Ok (class_description c)
         /\ Forall (fun a =>
                      exists prop node,
                        property_node definition prop = Some (JObj node)
                        /\ _get_desc (JObj node) = Ok (spec_desc node)
                        /\ _format_comment one_line str_placeholder prop (spec_desc node)
                             "used" " is" = Ok (attr_description a))
                   (class_attrs c).
Proof.
  eexists. split; [vm_compute; reflexivity |]. split; [reflexivity |].
  exact (C9_descriptions_prefer_long one_line str_placeholder
           (mk_params "Widget" [] [] "swordfish") _ "Widget" (JObj widget) eq_refl).
Defined.

(** The rule of C10 at a name that starts with a digit and at the empty
    name. *)
Lemma C10_link_fallback_witness :
  _get_type str_placeholder "1st" (JObj []) = Ok (JStr "common.Link")
  /\ _get_type str_placeholder "" array_node = Ok (JStr "[]common.Link").
Proof.
  split.
  - exact (proj2 (C10_link_fallback str_placeholder "1st" (JObj []) JNull JNull (JObj [])
                    eq_refl eq_refl eq_refl eq_refl eq_refl eq_refl eq_refl eq_refl
                    eq_refl eq_refl)).
  - exact (proj2 (C10_link_fallback str_placeholder "" array_node (JStr "array") JNull
                    (JObj []) eq_refl eq_refl eq_refl eq_refl eq_refl eq_refl eq_refl
                    eq_refl eq_refl eq_refl)).
Defined.

(** * Further properties of the translator *)

(** ** TypeResolver: the other rules, the closing steps and the failures *)

Section MoreTypes.

Variable py_str : json -> string.

(** X4. The three rules on exact names win over whatever the node declares:
    "Status", "Identifier" and "Description" are typed "common.Status",
    "common.Identifier" and "string", as a sequence when the declared type
    is "array". *)
Theorem X4_exact_name_rules :
  forall (obj tipe anyof : json),
    Py.get obj "type" JNull = Ok tipe ->
    get_anyof obj = Ok anyof ->
    let seq (base : string) := if Py.is_str "array" tipe then "[]" ++ base else base in
    _get_type py_str "Status" obj = Ok (JStr (seq "common.Status"))
    /\ _get_type py_str "Identifier" obj = Ok (JStr (seq "common.Identifier"))
    /\ _get_type py_str "Description" obj = Ok (JStr (seq "string")).
Proof.
  intros obj tipe anyof Htype Hany seq. unfold _get_type.
  rewrite Htype, Hany. cbn [bind].
  change (resolve "Status" obj tipe anyof) with (@Ok json (JStr "common.Status")).
  change (resolve "Identifier" obj tipe anyof) with (@Ok json (JStr "common.Identifier")).
  change (resolve "Description" obj tipe anyof) with (@Ok json (JStr "string")).
  cbn [bind]. rewrite !postprocess_string.
  unfold decorated, seq; destruct (Py.is_str "array" tipe); repeat split; reflexivity.
Qed.

(** X5. A property declared of type "object", under a name that no name
    rule takes, is typed by its own name, tagged when due. *)
Theorem X5_object_reuses_name :
  forall (name : string) (obj anyof : json),
    Py.get obj "type" JNull = Ok (JStr "object") ->
    get_anyof obj = Ok anyof ->
    no_name_rule name = true ->
    _get_type py_str name obj = Ok (JStr (decorated name (JStr "object") name))
    /\ (tagged name = false -> _get_type py_str name obj = Ok (JStr name)).
Proof.
  intros name obj anyof Htype Hany Hname.
  destruct (no_name_rule_inv _ Hname) as [Hc [Hs [Hi Hd]]].
  assert (H : _get_type py_str name obj = Ok (JStr (decorated name (JStr "object") name))).
  { unfold _get_type. rewrite Htype, Hany. cbn [bind]. unfold resolve.
    rewrite Hc, Hs, Hi, Hd. cbn [Py.is_str String.eqb Ascii.eqb Bool.eqb].
    apply postprocess_string. }
  split; [exact H |].
  intros Htag. rewrite H. unfold decorated. rewrite Htag. reflexivity.
Qed.

(** X6. A sequence whose items are a direct reference: under a name that no
    name rule takes, a node of declared type "array", without alternatives
    on itself or in its items, whose items hold the string [r] under "$ref",
    is typed as a sequence of the final path segment of [r]. *)
Theorem X6_items_reference :
  forall (name r : string) (m items : list (string * json)),
    Py.dict_get "type" m = Some (JStr "array") ->
    Py.dict_get "anyOf" m = None ->
    Py.dict_get "items" m = Some (JObj items) ->
    Py.dict_get "anyOf" items = None ->
    Py.dict_get "$ref" items = Some (JStr r) ->
    no_name_rule name = true ->
    _get_type py_str name (JObj m)
    = Ok (JStr (decorated name (JStr "array") (ref_name r)))
    /\ (tagged name = false ->
        _get_type py_str name (JObj m) = Ok (JStr ("[]" ++ ref_name r))).
Proof.
  intros name r m items Htype Hown Hitems Hin Href Hname.
  destruct (no_name_rule_inv _ Hname) as [Hc [Hs [Hi Hd]]].
  assert (H : _get_type py_str name (JObj m)
              = Ok (JStr (decorated name (JStr "array") (ref_name r)))).
  { unfold _get_type, get_anyof. cbn [Py.get bind].
    rewrite Htype, Hown. cbn [Py.truthy bind]. rewrite Hitems. cbn [Py.get bind].
    rewrite Hin. unfold resolve. rewrite Hc, Hs, Hi, Hd.
    change (Py.is_str "object" (JStr "array")) with false.
    cbn [Py.get bind]. rewrite Hitems. cbn [Py.contains bind].
    unfold Py.dict_has. rewrite Href.
    cbn [Py.getitem bind]. rewrite Hitems. cbn [Py.getitem bind]. rewrite Href.
    cbn [bind Py.split_last]. apply postprocess_string. }
  split; [exact H |].
  intros Htag. rewrite H. unfold decorated. rewrite Htag. reflexivity.
Qed.

(** X7. The last resort: a property that reaches the end of the chain under
    a name that starts with an uppercase letter, or that contains "odata" in
    some case, is a plain "string" (a sequence of strings for a declared
    "array"), tagged when due. *)
Theorem X7_default_string :
  forall (name : string) (obj tipe anyof items : json),
    Py.get obj "type" JNull = Ok tipe ->
    get_anyof obj = Ok anyof ->
    Py.get obj "items" (JObj []) = Ok items ->
    no_name_rule name = true ->
    Py.is_str "object" tipe = false ->
    is_list tipe = false ->
    is_list anyof = false ->
    Py.contains "$ref" items = Ok false ->
    starts_uppercase name = true \/ PyStr.contains "odata" (PyStr.lower name) = true ->
    _get_type py_str name obj = Ok (JStr (decorated name tipe "string")).
Proof.
  intros name obj tipe anyof items Htype Hany Hitems Hname Hobj Hlist Hany_list
         Href Hcase.
  destruct (no_name_rule_inv _ Hname) as [Hc [Hs [Hi Hd]]].
  assert (Htest : (PyStr.first1 name =? PyStr.lower (PyStr.first1 name))
                  && negb (PyStr.contains "odata" (PyStr.lower name)) = false).
  { rewrite first_character_test. destruct Hcase as [-> | ->]; [reflexivity |].
    apply andb_false_r. }
  unfold _get_type. rewrite Htype, Hany. cbn [bind].
  unfold resolve. rewrite Hc, Hs, Hi, Hd, Hobj.
  destruct tipe; try discriminate Hlist;
    destruct anyof; try discriminate Hany_list;
    rewrite Hitems; cbn [bind]; rewrite Href; cbn [bind];
    rewrite Htest; cbn [bind]; apply postprocess_string.
Qed.

(** X8. The resolver fails with AttributeError on a node that is not an
    object, and on an object without a non-empty "anyOf" whose "items" is
    present and not an object (a list of schemas, say); this happens before
    any rule is tried, so also for a name that contains "count". *)
Theorem X8_resolver_failures :
  forall (name : string),
    (forall node, is_object node = false ->
                  _get_type py_str name node = Raise AttributeError)
    /\ (forall m items,
          match Py.dict_get "anyOf" m with
          | Some own => Py.truthy own = false
          | None => True
          end ->
          Py.dict_get "items" m = Some items ->
          is_object items = false ->
          _get_type py_str name (JObj m) = Raise AttributeError).
Proof.
  intros name. split.
  - intros node Hnode. destruct node; try discriminate Hnode; reflexivity.
  - intros m items Hown Hitems Hnot.
    unfold _get_type, get_anyof. cbn [Py.get bind].
    destruct (Py.dict_get "anyOf" m) as [own |].
    + rewrite Hown, Hitems. destruct items; try discriminate Hnot; reflexivity.
    + cbn [Py.truthy]. rewrite Hitems.
      destruct items; try discriminate Hnot; reflexivity.
Qed.

Lemma append_empty_r (s : string) : s ++ "" = s.
Proof. induction s as [| c t IH]; simpl; [reflexivity | now rewrite IH]. Qed.

Lemma append_assoc (a b c : string) : (a ++ b) ++ c = a ++ b ++ c.
Proof. induction a as [| x t IH]; simpl; [reflexivity | now rewrite IH]. Qed.

Lemma get_type_tag (name : string) (obj result : json) :
  _get_type py_str name obj = Ok result ->
  tagged name = true ->
  exists before,
    result = JStr (before ++ " `json:" ++ PyStr.dquote ++ name ++ PyStr.dquote ++ "`").
Proof.
  intros Hrun Htag. unfold _get_type in Hrun.
  bind_inv Hrun. bind_inv Hrun. bind_inv Hrun.
  unfold postprocess in Hrun. bind_inv Hrun. fold (tagged name) in Hrun.
  rewrite Htag in Hrun. inversion Hrun; subst result.
  exists (format_s py_str v2). reflexivity.
Qed.

(** X9. Whatever rule decides, a result for a node of declared type "array"
    is a string that starts with "[]", and a result under a name that
    contains "odata" or is in the override table is a string that ends with
    the serialization tag of that name. *)
Theorem X9_closing_steps :
  forall (name : string) (obj result : json),
    _get_type py_str name obj = Ok result ->
    (Py.get obj "type" JNull = Ok (JStr "array") ->
     exists rest, result = JStr ("[]" ++ rest))
    /\ (tagged name = true ->
        exists before,
          result = JStr (before ++ " `json:" ++ PyStr.dquote ++ name
                         ++ PyStr.dquote ++ "`")).
Proof.
  intros name obj result Hrun.
  split; [| now apply (get_type_tag name obj)].
  unfold _get_type in Hrun.
  bind_inv Hrun. bind_inv Hrun. bind_inv Hrun.
  unfold postprocess in Hrun. bind_inv Hrun. fold (tagged name) in Hrun.
  intros Harr. rewrite Harr in E. inversion E; subst v.
    cbn [Py.is_str String.eqb Ascii.eqb Bool.eqb] in E2.
    destruct v1 as [| | | t | |]; try discriminate E2.
    cbn [Py.str_add] in E2. inversion E2; subst v2.
    destruct (tagged name); inversion Hrun; subst result.
    + exists (t ++ " `json:" ++ PyStr.dquote ++ name ++ PyStr.dquote ++ "`").
      reflexivity.
    + now exists t.
Qed.

Lemma fold_pick_strings (kinds : list json) (s : string) :
  forallb is_string kinds = true ->
  exists s', fold_left pick_kind kinds (JStr s) = JStr s'.
Proof.
  revert s; induction kinds as [| kind rest IH]; intros s; simpl.
  - intros _. now exists s.
  - intros H. apply andb_true_iff in H. destruct H as [Hk Hrest].
    destruct kind as [| | | k | |]; try discriminate Hk.
    unfold pick_kind.
    destruct (Py.is_str "null" (JStr k)); [now apply IH |].
    destruct (Py.is_str "integer" (JStr k) || Py.is_str "number" (JStr k));
      [now apply IH |].
    destruct (Py.is_str "boolean" (JStr k)); now apply IH.
Qed.

(** On a well-shaped node the lookup of the alternatives gives nothing or a
    list of alternatives of the schemas' shape. *)
Lemma get_anyof_shaped (m : list (string * json)) :
  well_shaped m = true ->
  exists anyof,
    get_anyof (JObj m) = Ok anyof
    /\ (anyof = JNull
        \/ exists alternatives,
             anyof = JArr alternatives
             /\ forallb ref_alternative alternatives = true).
Proof.
  unfold well_shaped. intros H.
  apply andb_true_iff in H. destruct H as [H Hitems].
  apply andb_true_iff in H. destruct H as [_ Hown].
  unfold get_anyof. cbn [Py.get bind].
  assert (Hpath : exists anyof,
             (items <- Ok match Py.dict_get "items" m with
                          | Some x => x
                          | None => JObj []
                          end ;; Py.get items "anyOf" JNull) = Ok anyof
             /\ (anyof = JNull
                 \/ exists alternatives,
                      anyof = JArr alternatives
                      /\ forallb ref_alternative alternatives = true)).
  { cbn [bind].
    destruct (Py.dict_get "items" m) as [[| | | | | items] |];
      try discriminate Hitems.
    - apply andb_true_iff in Hitems. destruct Hitems as [Hin _].
      cbn [Py.get]. unfold shaped_anyof in Hin.
      destruct (Py.dict_get "anyOf" items) as [[| | | | alternatives |] |];
        try discriminate Hin.
      + eexists. split; [reflexivity |]. right. now exists alternatives.
      + eexists. split; [reflexivity |]. now left.
    - eexists. split; [reflexivity |]. now left. }
  unfold shaped_anyof in Hown.
  destruct (Py.dict_get "anyOf" m) as [[| | | | [| a alternatives] |] |];
    try discriminate Hown; cbn [Py.truthy]; try exact Hpath.
  eexists. split; [reflexivity |]. right. now eexists.
Qed.

Lemma get_type_shaped :
  forall (name : string) (m : list (string * json)),
    well_shaped m = true ->
    exists type, _get_type py_str name (JObj m) = Ok (JStr type).
Proof.
  intros name m Hshape.
  destruct (get_anyof_shaped _ Hshape) as [anyof [Hany Hkind]].
  unfold _get_type. cbn [Py.get bind]. rewrite Hany. cbn [bind].
  set (tipe := match Py.dict_get "type" m with Some x => x | None => JNull end).
  assert (Hres : exists s, resolve name (JObj m) tipe anyof = Ok (JStr s)).
  { unfold resolve.
    destruct (PyStr.contains "count" (PyStr.lower name)); [now eexists |].
    destruct (name =? "Status"); [now eexists |].
    destruct (name =? "Identifier"); [now eexists |].
    destruct (name =? "Description"); [now eexists |].
    destruct (Py.is_str "object" tipe); [now eexists |].
    assert (Hchain : exists s,
               match anyof with
               | JArr alternatives => for_each pick_ref alternatives (JStr "string")
               | _ =>
                   items <- Py.get (JObj m) "items" (JObj []) ;;
                   has <- Py.contains "$ref" items ;;
                   if has then
                     items <- Py.getitem (JObj m) (JStr "items") ;;
                     r <- Py.getitem items (JStr "$ref") ;;
                     Py.split_last "/" r
                   else if (PyStr.first1 name =? PyStr.lower (PyStr.first1 name))
                           && negb (PyStr.contains "odata" (PyStr.lower name))
                   then Ok (JStr "common.Link")
                   else Ok (JStr "string")
               end = Ok (JStr s)).
    { destruct Hkind as [-> | [alternatives [-> Hrefs]]].
      - unfold well_shaped in Hshape.
        apply andb_true_iff in Hshape. destruct Hshape as [_ Hitems].
        cbn [Py.get Py.getitem bind].
        destruct (Py.dict_get "items" m) as [[| | | | | items] |];
          try discriminate Hitems; cbn [Py.contains bind].
        + apply andb_true_iff in Hitems. destruct Hitems as [_ Href].
          unfold Py.dict_has. cbn [Py.getitem].
          destruct (Py.dict_get "$ref" items) as [[| | | r | |] |];
            try discriminate Href; cbn [bind Py.split_last].
          * now eexists.
          * destruct ((PyStr.first1 name =? PyStr.lower (PyStr.first1 name))
                      && negb (PyStr.contains "odata" (PyStr.lower name)));
              now eexists.
        + cbn [Py.dict_has Py.dict_get].
          destruct ((PyStr.first1 name =? PyStr.lower (PyStr.first1 name))
                    && negb (PyStr.contains "odata" (PyStr.lower name)));
            now eexists.
      - rewrite (for_each_pick_ref _ _ Hrefs). now eexists. }
    unfold well_shaped in Hshape.
    apply andb_true_iff in Hshape. destruct Hshape as [Hshape _].
    apply andb_true_iff in Hshape. destruct Hshape as [Htype _].
    subst tipe.
    destruct (Py.dict_get "type" m) as [[| | | | kinds |] |]; try exact Hchain.
    destruct (fold_pick_strings kinds "string" Htype) as [s Hs].
    exists s. now rewrite Hs. }
  destruct Hres as [s Hs]. rewrite Hs. cbn [bind].
  rewrite postprocess_string. now eexists.
Qed.

(** X10. On a well-shaped property node the resolver never fails and its
    result is a string, under every name. *)
Theorem X10_resolver_total_on_shaped_nodes :
  forall (name : string) (m : list (string * json)),
    well_shaped m = true ->
    exists type, _get_type py_str name (JObj m) = Ok (JStr type).
Proof. exact get_type_shaped. Qed.

End MoreTypes.

(** ** NameNormalizer: the override table and the names of collections *)

Lemma has_char_app (c : ascii) (a b : string) :
  has_char c (a ++ b) = has_char c a || has_char c b.
Proof.
  induction a as [| x t IH]; simpl; [reflexivity |].
  now rewrite IH, orb_assoc.
Qed.

Lemma split_at_separator (sep : ascii) (stem rest : string) :
  has_char sep stem = false ->
  PyStr.split sep (stem ++ String sep rest) = stem :: PyStr.split sep rest.
Proof.
  induction stem as [| c t IH]; simpl; intros H.
  - now rewrite Ascii.eqb_refl.
  - apply orb_false_iff in H. destruct H as [Hc Ht].
    rewrite Hc, (IH Ht). reflexivity.
Qed.

Lemma contains_app_r (sub a b : string) :
  PyStr.contains sub b = true -> PyStr.contains sub (a ++ b) = true.
Proof.
  intros H. induction a as [| c t IH]; [exact H |].
  cbn [append PyStr.contains]. rewrite IH. apply orb_true_r.
Qed.

Lemma prefix_contains (sub s : string) :
  prefix sub s = true -> PyStr.contains sub s = true.
Proof. intros H. destruct s; cbn [PyStr.contains]; now rewrite H. Qed.

(** A text that contains a word contains the word without its first
    character. *)
Lemma contains_drop_first (c : ascii) (sub s : string) :
  PyStr.contains (String c sub) s = true -> PyStr.contains sub s = true.
Proof.
  induction s as [| a t IH]; cbn [PyStr.contains].
  - cbn [prefix]. discriminate.
  - intros H. apply orb_true_iff in H. destruct H as [H | H].
    + cbn [prefix] in H. destruct (ascii_dec c a); [| discriminate H].
      rewrite (prefix_contains _ _ H). apply orb_true_r.
    + rewrite (IH H). apply orb_true_r.
Qed.

Lemma replace_marker_at_end (replacement stem : string) :
  has_char "@" stem = false ->
  PyStr.replace "@odata" replacement (stem ++ "@odata") = stem ++ replacement.
Proof.
  unfold PyStr.replace. induction stem as [| c t IH]; intros H.
  - cbn. apply append_empty_r.
  - cbn [has_char] in H. apply orb_false_iff in H. destruct H as [Hc Ht].
    cbn [append PyStr.replace_from prefix].
    destruct (ascii_dec "@" c) as [<- | _]; [discriminate Hc |].
    now rewrite (IH Ht).
Qed.

(** X1. The count and the links of a collection: for a stem without '.' and
    '@' and a segment without '.', the name "<stem>@odata.<segment>" becomes
    the stem, then "OData" unless the segment contains "count", then the
    segment in title case; so "<stem>@odata.count" becomes "<stem>Count". *)
Theorem X1_collection_annotation :
  forall (stem seg : string),
    has_char "." stem = false ->
    has_char "@" stem = false ->
    has_char "." seg = false ->
    normalize (stem ++ "@odata." ++ seg)
    = stem ++ (if PyStr.contains "count" seg then "" else "OData") ++ PyStr.title seg.
Proof.
  intros stem seg Hdot Hat Hseg. unfold normalize.
  rewrite (contains_app_r "@odata" stem ("@odata." ++ seg) eq_refl).
  change (stem ++ "@odata." ++ seg) with (stem ++ "@odata" ++ String "." seg).
  rewrite <- append_assoc, split_at_separator, (split_without_separator _ _ Hseg).
  - cbn [PyStr.head hd PyStr.last List.last].
    rewrite (replace_marker_at_end _ _ Hat). apply append_assoc.
  - rewrite has_char_app, Hdot. reflexivity.
Qed.

(** X2. Names without the marker "@odata": "Oem" and "Id" become "OEM" and
    "ID", every other name is kept, and normalizing twice changes nothing
    more. *)
Theorem X2_override_table :
  forall prop : string,
    PyStr.contains "@odata" prop = false ->
    normalize prop
    = (if prop =? "Oem" then "OEM" else if prop =? "Id" then "ID" else prop)
    /\ normalize (normalize prop) = normalize prop.
Proof.
  intros prop Hmark.
  assert (H : normalize prop
              = (if prop =? "Oem" then "OEM" else if prop =? "Id" then "ID" else prop)).
  { unfold normalize. rewrite Hmark. unfold COMMON_NAME_CHANGES. cbn [Py.dict_get].
    destruct (prop =? "Oem"); [reflexivity |]. destruct (prop =? "Id"); reflexivity. }
  split; [exact H |]. rewrite H.
  destruct (prop =? "Oem") eqn:Ho; [reflexivity |].
  destruct (prop =? "Id") eqn:Hi; [reflexivity |].
  unfold normalize. rewrite Hmark. unfold COMMON_NAME_CHANGES. cbn [Py.dict_get].
  now rewrite Ho, Hi.
Qed.

Section MoreNames.

Variable wrap : string -> list string.
Variable py_str : json -> string.

(** X3. An attribute whose identifier differs from the name of its property
    carries the serialization tag of that name in its type, so the wire name
    is never lost by the renaming. *)
Theorem X3_renamed_attribute_is_tagged :
  forall (prop : string) (prawp : json) (a : attr),
    make_attr wrap py_str prop prawp = Ok a ->
    attr_name a <> prop ->
    exists before,
      attr_type a
      = JStr (before ++ " `json:" ++ PyStr.dquote ++ prop ++ PyStr.dquote ++ "`").
Proof.
  intros prop prawp a Hmake Hrenamed.
  destruct (make_attr_ok _ _ _ _ _ Hmake) as [m [-> [Hname [Htype _]]]].
  apply (get_type_tag py_str prop (JObj m)); [exact Htype |].
  destruct (tagged prop) eqn:Htag; [reflexivity |].
  exfalso. apply Hrenamed. rewrite Hname.
  unfold tagged in Htag. apply orb_false_iff in Htag. destruct Htag as [Hodata Hover].
  assert (Hmark : PyStr.contains "@odata" prop = false).
  { destruct (PyStr.contains "@odata" prop) eqn:E; [| reflexivity].
    apply contains_drop_first in E. rewrite E in Hodata. discriminate Hodata. }
  unfold normalize. rewrite Hmark.
  unfold Py.dict_has in Hover.
  destruct (Py.dict_get prop COMMON_NAME_CHANGES); [discriminate Hover | reflexivity].
Qed.

End MoreNames.

(** ** DefinitionClassifier: enumerations, document order and failures *)

Section MoreClassifier.

Variable wrap : string -> list string.
Variable py_str : json -> string.

Lemma format_comment_string (name description cutpoint add : string) :
  exists comment,
    _format_comment wrap py_str name (JStr description) cutpoint add = Ok comment.
Proof.
  unfold _format_comment.
  destruct (Py.dict_get name COMMON_DESC); [now eexists |].
  cbn [Py.contains bind].
  destruct (PyStr.contains cutpoint description) eqn:Hin; cbn [negb].
  - destruct (find_of_contains _ _ Hin) as [i ->]. now eexists.
  - rewrite find_empty. now eexists.
Qed.

(** A round of the loop over the literals appends one member, named by the
    literal; for a string literal its comment is made from the text of the
    literal under the synthetic name "<literal><enum name>". *)
Lemma add_member_ok (name : string) (enum : json) (members members' : list member)
    (en : json) :
  add_member wrap py_str name enum members en = Ok members' ->
  exists em description,
    enum = JObj em
    /\ members' = (members ++ [mk_member en description])%list
    /\ forall literal,
         en = JStr literal ->
         _format_comment wrap py_str (literal ++ name) (member_text em literal)
           "shall" "" = Ok description.
Proof.
  unfold add_member. intros H.
  destruct enum as [| | | | | em]; try discriminate H.
  cbn [Py.get bind] in H. bind_inv H. bind_inv H. bind_inv H. inversion H; subst.
  exists em, v1. repeat split.
  intros literal ->. cbn [format_s] in E1.
  assert (Htext : v0 = member_text em literal); [| now subst v0].
  unfold member_text, described, declared.
  destruct (Py.dict_get "enumLongDescriptions" em) as [[| | | | | longs] |];
    try discriminate E; cbn [Py.dict_get_any Py.dict_get] in E;
    inversion E; subst v; clear E.
  - destruct (Py.truthy match Py.dict_get literal longs with
                         | Some x => x
                         | None => JNull
                         end).
    + cbn [Py.dict_get_any] in E0. now inversion E0.
    + destruct (Py.dict_get "enumDescriptions" em) as [[| | | | | shorts] |];
        try discriminate E0; cbn [Py.dict_get_any Py.dict_get] in E0;
        now inversion E0.
  - cbn [Py.truthy] in E0 |- *.
    destruct (Py.dict_get "enumDescriptions" em) as [[| | | | | shorts] |];
      try discriminate E0; cbn [Py.dict_get_any Py.dict_get] in E0;
      now inversion E0.
Qed.

Lemma members_loop (name : string) (enum : json) :
  forall (literals : list json) (members members' : list member),
    for_each (add_member wrap py_str name enum) literals members = Ok members' ->
    map member_name members' = (map member_name members ++ literals)%list.
Proof.
  induction literals as [| en rest IH]; intros members members' Hrun.
  - inversion Hrun; subst. now rewrite app_nil_r.
  - cbn [for_each] in Hrun. bind_inv Hrun.
    destruct (add_member_ok _ _ _ _ _ E) as [em [description [_ [-> _]]]].
    rewrite (IH _ _ Hrun), map_app, <- app_assoc. reflexivity.
Qed.

Lemma add_enum_ok (p p' : params) (name : string) (enum : json) :
  _add_enum wrap py_str p name enum = Ok p' ->
  exists em description members literals,
    enum = JObj em
    /\ p' = with_enum p (mk_enum name description members)
    /\ Py.iter (declared "enum" em (JArr [])) = Ok literals
    /\ for_each (add_member wrap py_str name enum) literals [] = Ok members.
Proof.
  unfold _add_enum. intros H.
  bind_inv H. bind_inv H. bind_inv H. bind_inv H. bind_inv H.
  inversion H; subst; clear H.
  destruct (get_ok _ _ _ _ E1) as [em [-> ->]].
  exists em, v0, v3, v2. repeat split; assumption.
Qed.

(** X13. An enumeration is appended after those already there, under the
    name of its definition, and its members are named by the literals of
    the definition, verbatim and in order; the classes are left alone. *)
Theorem X13_enum_members_verbatim :
  forall (p p' : params) (name : string) (em : list (string * json))
         (literals : list json),
    Py.dict_get "enum" em = Some (JArr literals) ->
    _add_enum wrap py_str p name (JObj em) = Ok p' ->
    exists e,
      enums p' = (enums p ++ [e])%list
      /\ classes p' = classes p
      /\ enum_name e = name
      /\ map member_name (enum_members e) = literals.
Proof.
  intros p p' name em literals Henum Hadd.
  destruct (add_enum_ok _ _ _ _ Hadd)
    as [em' [description [members [lits [Heq [-> [Hiter Hloop]]]]]]].
  inversion Heq; subst em'. unfold declared in Hiter. rewrite Henum in Hiter.
  inversion Hiter; subst lits.
  exists (mk_enum name description members). repeat split.
  exact (members_loop _ _ _ _ _ Hloop).
Qed.

(** X14. The comment of an enum member named by a string literal is made
    under the name "<literal><enum name>", with the cutpoint "shall" and no
    verb, from the long description of the literal when it is not empty,
    otherwise from its short description, otherwise from the empty
    string. *)
Theorem X14_enum_member_comments :
  forall (p p' : params) (name : string) (em : list (string * json)),
    _add_enum wrap py_str p name (JObj em) = Ok p' ->
    exists e,
      enums p' = (enums p ++ [e])%list
      /\ Forall (fun mb =>
                   forall literal,
                     member_name mb = JStr literal ->
                     _format_comment wrap py_str (literal ++ name)
                       (member_text em literal) "shall" ""
                     = Ok (member_description mb))
                (enum_members e).
Proof.
  intros p p' name em Hadd.
  destruct (add_enum_ok _ _ _ _ Hadd)
    as [em' [description [members [lits [Heq [-> [_ Hloop]]]]]]].
  inversion Heq; subst em'.
  exists (mk_enum name description members). split; [reflexivity |].
  cbn [enum_members]. revert Hloop.
  apply (for_each_invariant
           (fun ms => Forall (fun mb =>
                                forall literal,
                                  member_name mb = JStr literal ->
                                  _format_comment wrap py_str (literal ++ name)
                                    (member_text em literal) "shall" ""
                                  = Ok (member_description mb)) ms)
           (add_member wrap py_str name (JObj em)) lits); [| constructor].
  intros ms en ms' _ Hms Hstep.
  destruct (add_member_ok _ _ _ _ _ Hstep) as [em' [d [Heq' [-> Htext]]]].
  inversion Heq'; subst em'.
  apply Forall_app. split; [exact Hms |].
  constructor; [| constructor]. exact Htext.
Qed.

(** What a round of the classification loop does to the names of the
    model. *)
Lemma classify_definition_names (definitions : list (string * json)) (p p' : params)
    (name : string) :
  classify_definition wrap py_str definitions p name = Ok p' ->
  object_name p' = object_name p
  /\ package p' = package p
  /\ map class_name (classes p')
     = (map class_name (classes p)
        ++ if yields_class definitions name then [name] else [])%list
  /\ map enum_name (enums p')
     = (map enum_name (enums p)
        ++ if yields_enum definitions name then [name] else [])%list.
Proof.
  unfold classify_definition, yields_class, yields_enum. intros H.
  destruct (name =? "Actions"); cbn [negb andb].
  - inversion H; subst. now rewrite !app_nil_r.
  - bind_inv H. bind_inv H. cbn [Py.getitem] in E.
    destruct (Py.dict_get name definitions) as [definition |]; [| discriminate E].
    inversion E; subst; clear E.
    destruct (get_ok _ _ _ _ E0) as [dm [-> ->]]. fold (declared "type" dm JNull) in H |- *.
    destruct (Py.is_str "object" (declared "type" dm JNull)); cbn [negb andb].
    + bind_inv H. bind_inv H. cbn [Py.get] in E. inversion E; subst v; clear E.
      fold (declared "properties" dm (JStr "")) in E1. rewrite E1.
      destruct v0; cbn [negb] in H |- *.
      * inversion H; subst. now rewrite !app_nil_r.
      * destruct (add_object_ok _ _ _ _ _ _ H) as [dm' [d [attrs [_ [-> _]]]]].
        cbn [with_class object_name package classes enums].
        rewrite map_app, app_nil_r. repeat split.
    + bind_inv H. cbn [Py.get] in E. inversion E; subst v; clear E.
      fold (declared "enum" dm JNull) in H.
      destruct (Py.truthy (declared "enum" dm JNull)).
      * destruct (add_enum_ok _ _ _ _ H) as [em [d [ms [ls [_ [-> _]]]]]].
        cbn [with_enum object_name package classes enums].
        rewrite map_app, app_nil_r. repeat split.
      * inversion H; subst. now rewrite !app_nil_r.
Qed.

Lemma classify_loop_names (definitions : list (string * json)) :
  forall (names : list string) (p p' : params),
    for_each (classify_definition wrap py_str definitions) names p = Ok p' ->
    object_name p' = object_name p
    /\ package p' = package p
    /\ map class_name (classes p')
       = (map class_name (classes p) ++ filter (yields_class definitions) names)%list
    /\ map enum_name (enums p')
       = (map enum_name (enums p) ++ filter (yields_enum definitions) names)%list.
Proof.
  induction names as [| name rest IH]; intros p p' Hrun.
  - inversion Hrun; subst. cbn [filter]. now rewrite !app_nil_r.
  - cbn [for_each] in Hrun. bind_inv Hrun.
    destruct (classify_definition_names _ _ _ _ E) as [Ho [Hp [Hc He]]].
    destruct (IH _ _ Hrun) as [Ho' [Hp' [Hc' He']]].
    rewrite Ho', Hp', Hc', He', Ho, Hp, Hc, He. cbn [filter].
    repeat split.
    + rewrite <- app_assoc. destruct (yields_class definitions name); reflexivity.
    + rewrite <- app_assoc. destruct (yields_enum definitions name); reflexivity.
Qed.

(** X15. The model of a classified document carries the object name and the
    package it was given; its classes are, in the order of the document, the
    definitions that are not named "Actions", are of declared type "object"
    and are not action bindings; its enumerations are, in the order of the
    document, the other definitions, "Actions" apart, that declare a
    non-empty "enum". *)
Theorem X15_document_order :
  forall (object type : string) (definitions : list (string * json)) (p : params),
    classify wrap py_str object type definitions = Ok p ->
    object_name p = object
    /\ package p = type
    /\ map class_name (classes p)
       = filter (yields_class definitions) (Py.keys definitions)
    /\ map enum_name (enums p)
       = filter (yields_enum definitions) (Py.keys definitions).
Proof.
  intros object type definitions p Hrun.
  exact (classify_loop_names _ _ _ _ Hrun).
Qed.

Lemma properties_loop_total (m properties : list (string * json)) :
  Py.dict_get "properties" m = Some (JObj properties) ->
  forall (props : list string) (attrs : list attr),
    forallb (fun prop =>
               (prop =? "Name") || (prop =? "Id")
               || match Py.dict_get prop properties with
                  | Some prawp => shaped_property prawp
                  | None => false
                  end) props = true ->
    exists attrs',
      for_each (add_property wrap py_str (JObj m)) (map JStr props) attrs = Ok attrs'.
Proof.
  intros Hprops. induction props as [| prop rest IH]; intros attrs Hall.
  - now eexists.
  - cbn [forallb] in Hall. apply andb_true_iff in Hall. destruct Hall as [Hprop Hrest].
    cbn [map for_each]. unfold add_property at 1. cbn [Py.is_str Py.getitem].
    rewrite (String.eqb_sym prop "Name"), (String.eqb_sym prop "Id") in Hprop.
    destruct (("Name" =? prop) || ("Id" =? prop)); cbn [bind orb] in Hprop |- *;
      [now apply IH |].
    rewrite Hprops. cbn [bind Py.getitem].
    destruct (Py.dict_get prop properties) as [[| | | | | pm] |];
      try discriminate Hprop.
    cbn [shaped_property] in Hprop. apply andb_true_iff in Hprop.
    destruct Hprop as [Hshape Hdesc].
    cbn [bind Py.get].
    destruct (Py.truthy match Py.dict_get "deprecated" pm with
                        | Some x => x
                        | None => JNull
                        end); [now apply IH |].
    unfold make_attr.
    destruct (get_type_shaped py_str prop pm Hshape) as [t ->].
    rewrite get_desc_object. cbn [bind].
    destruct (spec_desc pm) as [| | | d | |]; try discriminate Hdesc.
    destruct (format_comment_string prop d "used" " is") as [c ->].
    cbn [bind]. now apply IH.
Qed.

Lemma add_object_shaped (p : params) (name : string) (m : list (string * json)) :
  shaped_definition m = true ->
  exists description attrs,
    _add_object wrap py_str p name (JObj m)
    = Ok (with_class p (mk_class name description attrs)).
Proof.
  unfold shaped_definition. intros H.
  apply andb_true_iff in H. destruct H as [Hdesc Hprops].
  unfold _add_object. rewrite get_desc_object. cbn [bind].
  destruct (spec_desc m) as [| | | d | |]; try discriminate Hdesc.
  destruct (format_comment_string name d "used" " is") as [c ->].
  cbn [bind Py.get].
  destruct (Py.dict_get "properties" m) as [[| | | | | properties] |] eqn:Hp;
    try discriminate Hprops.
  - cbn [Py.iter bind].
    destruct (properties_loop_total _ _ Hp _ [] Hprops) as [attrs ->].
    cbn [bind]. now eexists _, _.
  - cbn [Py.iter for_each bind]. now eexists _, _.
Qed.

(** X16. The class builder cannot fail on an object definition that is
    described by a string and whose property nodes, those of "Name" and "Id"
    apart, are well-shaped and described by strings; it appends one class
    under the name of the definition, with one attribute per kept
    property. *)
Theorem X16_class_builder_total :
  forall (p : params) (name : string) (m : list (string * json)),
    shaped_definition m = true ->
    exists c,
      _add_object wrap py_str p name (JObj m) = Ok (with_class p c)
      /\ class_name c = name
      /\ List.length (class_attrs c) = List.length (source_properties m).
Proof.
  intros p name m Hshape.
  destruct (add_object_shaped p name m Hshape) as [description [attrs Hadd]].
  exists (mk_class name description attrs). repeat split; [exact Hadd |].
  destruct (add_object_ok _ _ _ _ _ _ Hadd) as [m' [d' [attrs' [Hm [Hp Hfrom]]]]].
  inversion Hm; subst m'.
  assert (Hsame : attrs = attrs').
  { apply (f_equal classes) in Hp. cbn [with_class classes] in Hp.
    apply app_inv_head in Hp. now inversion Hp. }
  subst attrs'. destruct Hfrom as [_ Hfrom].
  exact (Forall2_length Hfrom).
Qed.

Lemma dict_get_string {d : list (string * json)} {k : string} {v : json} :
  forallb (fun kv => is_string (snd kv)) d = true ->
  Py.dict_get k d = Some v -> is_string v = true.
Proof.
  induction d as [| [k' v'] rest IH]; cbn [forallb Py.dict_get snd]; [discriminate |].
  intros H. apply andb_true_iff in H. destruct H as [Hv Hrest].
  destruct (k =? k'); [intros Heq; now inversion Heq; subst | now apply IH].
Qed.

(** The lookup of a literal in a shaped description table gives the default
    or a string. *)
Lemma table_value (em : list (string * json)) (table literal : string)
    (default : json) :
  shaped_table (Py.dict_get table em) = true ->
  exists v,
    match match Py.dict_get table em with
          | Some x => x
          | None => JObj []
          end with
    | JObj d => Py.dict_get_any d (JStr literal) default
    | _ => Raise AttributeError
    end = Ok v
    /\ (v = default \/ is_string v = true).
Proof.
  unfold shaped_table. intros H.
  destruct (Py.dict_get table em) as [[| | | | | d] |]; try discriminate H.
  - cbn [Py.dict_get_any].
    destruct (Py.dict_get literal d) as [v |] eqn:Hv.
    + exists v. split; [reflexivity |]. right. exact (dict_get_string H Hv).
    + exists default. split; [reflexivity | now left].
  - exists default. split; [reflexivity | now left].
Qed.

Lemma add_member_shaped (name literal : string) (em : list (string * json))
    (members : list member) :
  shaped_table (Py.dict_get "enumLongDescriptions" em) = true ->
  shaped_table (Py.dict_get "enumDescriptions" em) = true ->
  exists members',
    add_member wrap py_str name (JObj em) members (JStr literal) = Ok members'.
Proof.
  intros Hlong Hshort. unfold add_member. cbn [Py.get bind].
  destruct (table_value em "enumLongDescriptions" literal JNull Hlong)
    as [long [Hl Hlk]].
  destruct (table_value em "enumDescriptions" literal (JStr "") Hshort)
    as [short [Hs Hsk]].
  rewrite Hl, Hs. cbn [bind].
  assert (Hdesc : exists d, (if Py.truthy long then long else short) = JStr d).
  { destruct (Py.truthy long) eqn:Ht.
    - destruct Hlk as [-> | Hstr]; [discriminate Ht |].
      destruct long; try discriminate Hstr. now eexists.
    - destruct Hsk as [-> | Hstr]; [now eexists |].
      destruct short; try discriminate Hstr. now eexists. }
  destruct Hdesc as [d Hd].
  destruct (Py.truthy long); cbn [bind]; rewrite Hd;
    destruct (format_comment_string (format_s py_str (JStr literal) ++ name) d "shall" "")
      as [c ->]; cbn [bind]; now eexists.
Qed.

Lemma add_enum_shaped (p : params) (name : string) (em : list (string * json)) :
  shaped_enum em = true ->
  exists p', _add_enum wrap py_str p name (JObj em) = Ok p'.
Proof.
  unfold shaped_enum. intros H.
  apply andb_true_iff in H. destruct H as [H Hshort].
  apply andb_true_iff in H. destruct H as [H Hlong].
  apply andb_true_iff in H. destruct H as [Hdesc Hlits].
  unfold _add_enum. rewrite get_desc_object. cbn [bind].
  destruct (spec_desc em) as [| | | d | |]; try discriminate Hdesc.
  destruct (format_comment_string name d "used" " is") as [c ->].
  cbn [bind Py.get].
  destruct (Py.dict_get "enum" em) as [[| | | | literals |] |]; try discriminate Hlits.
  cbn [Py.iter bind].
  assert (Hloop : forall members,
             exists members',
               for_each (add_member wrap py_str name (JObj em)) literals members
               = Ok members').
  { induction literals as [| en rest IH]; intros members; [now eexists |].
    cbn [forallb] in Hlits. apply andb_true_iff in Hlits. destruct Hlits as [Hen Hrest].
    destruct en as [| | | literal | |]; try discriminate Hen.
    cbn [for_each].
    destruct (add_member_shaped name literal em members Hlong Hshort) as [ms ->].
    cbn [bind]. now apply IH. }
  destruct (Hloop []) as [members ->]. cbn [bind]. now eexists.
Qed.

Lemma classify_definition_shaped (definitions : list (string * json)) (p : params)
    (name : string) :
  shaped_entry definitions name = true ->
  exists p', classify_definition wrap py_str definitions p name = Ok p'.
Proof.
  unfold shaped_entry, classify_definition. intros H.
  destruct (name =? "Actions"); [now eexists |].
  cbn [orb] in H. cbn [Py.getitem].
  destruct (Py.dict_get name definitions) as [[| | | | | m] |]; try discriminate H.
  cbn [bind Py.get]. fold (declared "type" m JNull).
  destruct (Py.is_str "object" (declared "type" m JNull)).
  - destruct (add_object_shaped p name m H) as [description [attrs Hadd]].
    unfold shaped_definition in H. apply andb_true_iff in H. destruct H as [_ Hprops].
    unfold is_action_binding.
    destruct (Py.dict_get "properties" m) as [[| | | | | properties] |];
      try discriminate Hprops; cbn [Py.contains bind].
    + destruct (Py.dict_has "target" properties); cbn [bind].
      * destruct (Py.dict_has "title" properties); cbn [negb];
          [now eexists | rewrite Hadd; now eexists].
      * cbn [negb]. rewrite Hadd. now eexists.
    + cbn. rewrite Hadd. now eexists.
  - fold (declared "enum" m JNull).
    destruct (Py.truthy (declared "enum" m JNull)); [| now eexists].
    cbn [negb orb] in H. apply add_enum_shaped. exact H.
Qed.

(** X17. The classification cannot fail on a document in which every
    definition, "Actions" apart, is an object that is either a shaped object
    definition, or declares no type "object" and no non-empty "enum", or is
    a shaped enum definition. *)
Theorem X17_classification_total :
  forall (object type : string) (definitions : list (string * json)),
    shaped_document definitions = true ->
    exists p, classify wrap py_str object type definitions = Ok p.
Proof.
  intros object type definitions. unfold shaped_document, classify.
  generalize (mk_params object [] [] type).
  induction (Py.keys definitions) as [| name rest IH]; intros p Hall; [now eexists |].
  cbn [forallb] in Hall. apply andb_true_iff in Hall. destruct Hall as [Hname Hrest].
  cbn [for_each].
  destruct (classify_definition_shaped definitions p name Hname) as [p' ->].
  cbn [bind]. now apply IH.
Qed.

(** X12. The description of a node is the empty string only when the node
    has no "description" at all: with an explicit null, a number or a
    boolean there, and no usable "longDescription", the class builder fails
    with TypeError under every name that has no curated sentence. *)
Theorem X12_null_description_fails :
  forall (p : params) (name : string) (m : list (string * json)),
    Py.dict_get name COMMON_DESC = None ->
    match spec_desc m with
    | JNull | JBool _ | JNum _ => True
    | _ => False
    end ->
    _add_object wrap py_str p name (JObj m) = Raise TypeError.
Proof.
  intros p name m Hname Hdesc.
  unfold _add_object. rewrite get_desc_object. cbn [bind].
  unfold _format_comment. rewrite Hname.
  destruct (spec_desc m); try contradiction; reflexivity.
Qed.

End MoreClassifier.

(** ** ReferenceChaser: bounds, repetition and missing definitions *)

Lemma chase_ref_ge (url url' : string) (ref : json) :
  chase_ref url ref = Ok url' -> PyStr.gt url url' = false.
Proof.
  unfold chase_ref. intros H. bind_inv H. bind_inv H.
  destruct v0.
  - inversion H; subst. apply gt_irrefl.
  - bind_inv H. destruct (PyStr.gt v0 url) eqn:Hgt; inversion H; subst.
    + now apply gt_asym.
    + apply gt_irrefl.
Qed.

Lemma for_each_chase_ge (refs : list json) (url result : string) :
  for_each chase_ref refs url = Ok result -> PyStr.gt url result = false.
Proof.
  apply (for_each_invariant (fun s => PyStr.gt url s = false) chase_ref refs);
    [| apply gt_irrefl].
  intros s ref s' _ Hs Hstep.
  exact (le_trans _ _ _ Hs (chase_ref_ge _ _ _ Hstep)).
Qed.

Lemma chase_ge (base_data : json) (object : string) (classdefs : list json)
    (url result : string) :
  chase base_data object classdefs url = Ok result -> PyStr.gt url result = false.
Proof.
  induction classdefs as [| classdef rest IH]; cbn [chase]; intros H.
  - inversion H; subst. apply gt_irrefl.
  - destruct (Py.is_str object classdef); [| now apply IH].
    bind_inv H. bind_inv H. bind_inv H. bind_inv H.
    exact (for_each_chase_ge _ _ _ H).
Qed.

(** X18. Whatever the stub document holds, an address the chaser returns
    never sorts before the address it started from: it is that address or
    one that is greater. *)
Theorem X18_never_below_base :
  forall (url object result : string) (base_data : json),
    resolve_canonical_url url base_data object = Ok result ->
    PyStr.gt url result = false
    /\ (result = url \/ PyStr.gt result url = true).
Proof.
  intros url object result base_data H.
  unfold resolve_canonical_url in H. bind_inv H. bind_inv H.
  pose proof (chase_ge _ _ _ _ _ H) as Hge. split; [exact Hge |].
  unfold PyStr.gt in *. rewrite (String.compare_antisym result url).
  destruct (String.compare url result) eqn:Hcmp; cbn [CompOpp].
  - left. symmetry. now apply String.compare_eq_iff.
  - now right.
  - discriminate Hge.
Qed.

Lemma chase_keys_absent (base_data : json) (object url : string) (names : list string) :
  ~ In object names -> chase base_data object (map JStr names) url = Ok url.
Proof.
  induction names as [| name rest IH]; simpl; [reflexivity |].
  intros Hnot. destruct (String.eqb_spec object name) as [<- | Hne].
  - elim Hnot. now left.
  - apply IH. intros Hin. apply Hnot. now right.
Qed.

Lemma dict_get_absent {A : Type} (k : string) (m : list (string * A)) :
  Py.dict_get k m = None -> ~ In k (Py.keys m).
Proof.
  induction m as [| [k' v'] rest IH]; simpl; [easy |].
  destruct (String.eqb_spec k k') as [-> | Hne]; [discriminate |].
  intros H [Heq | Hin]; [now elim Hne | now apply IH].
Qed.

(** X21. A stub without "definitions", or whose definitions do not hold the
    object, leaves the address as it is. *)
Theorem X21_missing_definition :
  forall (url object : string) (document : list (string * json)),
    match Py.dict_get "definitions" document with
    | None => True
    | Some (JObj definitions) => Py.dict_get object definitions = None
    | Some _ => False
    end ->
    resolve_canonical_url url (JObj document) object = Ok url.
Proof.
  intros url object document H. unfold resolve_canonical_url. cbn [Py.get bind].
  destruct (Py.dict_get "definitions" document) as [[| | | | | definitions] |];
    try contradiction.
  - cbn [Py.iter bind]. apply chase_keys_absent. now apply dict_get_absent.
  - reflexivity.
Qed.

(** On a stub of the schemas' shape the chaser returns the running maximum
    of the candidates, seeded with the address it starts from. *)
Lemma resolve_shaped (url object : string)
    (document definitions definition : list (string * json))
    (alternatives : list json) :
  Py.dict_get "definitions" document = Some (JObj definitions) ->
  Py.dict_get object definitions = Some (JObj definition) ->
  Py.get (JObj definition) "anyOf" (JArr []) = Ok (JArr alternatives) ->
  forallb ref_alternative alternatives = true ->
  resolve_canonical_url url (JObj document) object
  = Ok (fold_left max_str (candidates alternatives) url).
Proof.
  intros Hdefs Hobj Hany Hrefs.
  unfold resolve_canonical_url. cbn [Py.get bind]. rewrite Hdefs. cbn [Py.iter bind].
  rewrite (chase_keys _ _ _ _ (dict_get_in_keys _ _ _ Hobj)).
  cbn [Py.getitem bind]. rewrite Hdefs. cbn [Py.getitem bind]. rewrite Hobj.
  cbn [bind]. rewrite Hany. cbn [Py.iter bind].
  apply (for_each_chase_ref _ _ Hrefs).
Qed.

Lemma fold_max_fixed (l : list string) (seed : string) :
  (forall c, In c l -> PyStr.gt c seed = false) ->
  fold_left max_str l seed = seed.
Proof.
  induction l as [| x rest IH]; intros H; cbn [fold_left]; [reflexivity |].
  unfold max_str at 2. rewrite (H x (or_introl eq_refl)).
  apply IH. intros c Hc. apply H. now right.
Qed.

(** X19. Chasing again from the address found, on the same stub, finds the
    same address: the answer is stable. *)
Theorem X19_chase_is_stable :
  forall (url object : string) (document definitions definition : list (string * json))
         (alternatives : list json),
    Py.dict_get "definitions" document = Some (JObj definitions) ->
    Py.dict_get object definitions = Some (JObj definition) ->
    Py.get (JObj definition) "anyOf" (JArr []) = Ok (JArr alternatives) ->
    forallb ref_alternative alternatives = true ->
    exists canonical,
      resolve_canonical_url url (JObj document) object = Ok canonical
      /\ resolve_canonical_url canonical (JObj document) object = Ok canonical.
Proof.
  intros url object document definitions definition alternatives Hdefs Hobj Hany Hrefs.
  exists (fold_left max_str (candidates alternatives) url).
  rewrite !(resolve_shaped _ _ _ _ _ _ Hdefs Hobj Hany Hrefs).
  split; [reflexivity |]. f_equal.
  apply fold_max_fixed. intros c Hc. now apply fold_max_ge_all.
Qed.

Lemma gt_antisym (a b : string) :
  PyStr.gt a b = false -> PyStr.gt b a = false -> a = b.
Proof.
  unfold PyStr.gt. rewrite (String.compare_antisym b a).
  destruct (String.compare a b) eqn:Hcmp; cbn [CompOpp]; try discriminate.
  intros _ _. now apply String.compare_eq_iff.
Qed.

Lemma candidates_members (alternatives alternatives' : list json) :
  (forall a, In a alternatives <-> In a alternatives') ->
  forall c, In c (candidates alternatives) -> In c (candidates alternatives').
Proof.
  intros Hsame c Hc. unfold candidates in *.
  apply in_map_iff in Hc. destruct Hc as [a [<- Ha]].
  apply filter_In in Ha. destruct Ha as [Ha Hkeep].
  apply in_map_iff. exists a. split; [reflexivity |].
  apply filter_In. split; [now apply Hsame | exact Hkeep].
Qed.

(** X20. The address found depends on which alternatives the object lists,
    not on their order nor on repetitions: two stubs of the schemas' shape
    whose objects list the same alternatives give the same address. *)
Theorem X20_order_of_alternatives :
  forall (url object : string)
         (document definitions definition : list (string * json))
         (document' definitions' definition' : list (string * json))
         (alternatives alternatives' : list json),
    Py.dict_get "definitions" document = Some (JObj definitions) ->
    Py.dict_get object definitions = Some (JObj definition) ->
    Py.get (JObj definition) "anyOf" (JArr []) = Ok (JArr alternatives) ->
    forallb ref_alternative alternatives = true ->
    Py.dict_get "definitions" document' = Some (JObj definitions') ->
    Py.dict_get object definitions' = Some (JObj definition') ->
    Py.get (JObj definition') "anyOf" (JArr []) = Ok (JArr alternatives') ->
    forallb ref_alternative alternatives' = true ->
    (forall a, In a alternatives <-> In a alternatives') ->
    resolve_canonical_url url (JObj document) object
    = resolve_canonical_url url (JObj document') object.
Proof.
  intros url object document definitions definition document' definitions' definition'
         alternatives alternatives' Hdefs Hobj Hany Hrefs Hdefs' Hobj' Hany' Hrefs' Hsame.
  rewrite (resolve_shaped _ _ _ _ _ _ Hdefs Hobj Hany Hrefs),
          (resolve_shaped _ _ _ _ _ _ Hdefs' Hobj' Hany' Hrefs').
  f_equal.
  assert (Hge : forall l l' : list string,
             (forall c, In c l -> In c l') ->
             PyStr.gt (fold_left max_str l url) (fold_left max_str l' url) = false).
  { intros l l' Hsub. destruct (fold_max_in l url) as [<- | Hin].
    - apply fold_max_ge_seed.
    - apply fold_max_ge_all. now apply Hsub. }
  apply gt_antisym; apply Hge; apply candidates_members; [exact Hsame |].
  intros a. symmetry. apply Hsame.
Qed.

(** ** CommentSynthesizer: curated names and descriptions that are not text *)

Section MoreComments.

Variable wrap : string -> list string.
Variable py_str : json -> string.

(** X11. Under a name with a curated sentence the synthesizer returns that
    sentence and never looks at the description, whatever it is; under
    another name it fails with TypeError on a description that is null, a
    boolean or a number, and with AttributeError on one that is an
    object. *)
Theorem X11_descriptions_that_are_not_text :
  forall (name cutpoint add : string) (description : json),
    match Py.dict_get name COMMON_DESC with
    | Some curated =>
        _format_comment wrap py_str name description cutpoint add = Ok ("// " ++ curated)
    | None =>
        match description with
        | JNull | JBool _ | JNum _ =>
            _format_comment wrap py_str name description cutpoint add = Raise TypeError
        | JObj _ =>
            _format_comment wrap py_str name description cutpoint add
            = Raise AttributeError
        | JStr _ | JArr _ => True
        end
    end.
Proof.
  intros name cutpoint add description. unfold _format_comment.
  destruct (Py.dict_get name COMMON_DESC); [reflexivity |].
  destruct description; reflexivity || exact I.
Qed.

Lemma find_is_first (sub s : string) (i : nat) :
  PyStr.find sub s = Some i ->
  forall j, (j < i)%nat -> prefix sub (PyStr.drop j s) = false.
Proof.
  revert i; induction s as [| c t IH]; intros i; cbn [PyStr.find].
  - destruct (prefix sub ""); [| discriminate].
    intros H; inversion H; subst. intros j Hj. inversion Hj.
  - destruct (prefix sub (String c t)) eqn:Hp.
    + intros H; inversion H; subst. intros j Hj. inversion Hj.
    + destruct (PyStr.find sub t) as [k |]; [| discriminate].
      cbn [option_map]. intros H; inversion H; subst.
      intros [| j] Hj; [exact Hp |].
      cbn [PyStr.drop]. apply (IH k eq_refl). lia.
Qed.

(** X22. Under a name without a curated sentence, a description that
    contains the cutpoint is cut at the first occurrence of the cutpoint:
    the sentence is "<name><prefix> " followed by the description from that
    position on, and the cutpoint occurs at no earlier position. *)
Theorem X22_cut_at_first_occurrence :
  forall (name description cutpoint add : string),
    Py.dict_get name COMMON_DESC = None ->
    PyStr.contains cutpoint description = true ->
    exists i,
      PyStr.find cutpoint description = Some i
      /\ prefix cutpoint (PyStr.drop i description) = true
      /\ (forall j, (j < i)%nat -> prefix cutpoint (PyStr.drop j description) = false)
      /\ _format_comment wrap py_str name (JStr description) cutpoint add
         = Ok (comment_lines (wrap (name ++ add ++ " " ++ PyStr.drop i description))).
Proof.
  intros name description cutpoint add Hname Hin.
  destruct (find_of_contains _ _ Hin) as [i Hi].
  exists i. split; [exact Hi |].
  split; [exact (proj1 (find_cut _ _ _ Hi)) |].
  split; [exact (find_is_first _ _ _ Hi) |].
  unfold _format_comment. rewrite Hname. cbn [Py.contains bind].
  rewrite Hin. cbn [negb]. now rewrite Hi.
Qed.

End MoreComments.

(** ** TypeResolver: what the resolver reads *)

Section Frame.

Variable py_str : json -> string.

(** X23. The resolver reads the keys "type", "anyOf" and "items" of a node
    and no other: two nodes that agree on these three give the same result,
    failure included.  In particular a "$ref" or an "enum" on the node
    itself plays no part. *)
Theorem X23_resolver_reads_three_keys :
  forall (name : string) (m m' : list (string * json)),
    Py.dict_get "type" m = Py.dict_get "type" m' ->
    Py.dict_get "anyOf" m = Py.dict_get "anyOf" m' ->
    Py.dict_get "items" m = Py.dict_get "items" m' ->
    _get_type py_str name (JObj m) = _get_type py_str name (JObj m').
Proof.
  intros name m m' Htype Hany Hitems.
  unfold _get_type, get_anyof, resolve. cbn [Py.get Py.getitem bind].
  now rewrite Htype, Hany, Hitems.
Qed.

End Frame.

(** ** The further properties on the sample inputs *)

Lemma X1_collection_annotation_witness :
  normalize ("Members" ++ "@odata." ++ "count") = "MembersCount".
Proof.
  exact (X1_collection_annotation "Members" "count" eq_refl eq_refl eq_refl).
Defined.

Lemma X2_override_table_witness :
  normalize "Oem" = "OEM" /\ normalize (normalize "Oem") = normalize "Oem".
Proof.
  exact (X2_override_table "Oem" eq_refl).
Defined.

Lemma X3_renamed_attribute_witness :
  exists a,
    make_attr one_line str_placeholder "Members@odata.count" integer_node = Ok a
    /\ attr_name a = "MembersCount"
    /\ exists before,
         attr_type a
         = JStr (before ++ " `json:" ++ PyStr.dquote ++ "Members@odata.count"
                 ++ PyStr.dquote ++ "`").
Proof.
  eexists. split; [vm_compute; reflexivity |]. split; [reflexivity |].
  apply (X3_renamed_attribute_is_tagged one_line str_placeholder
           "Members@odata.count" integer_node); [reflexivity |].
  vm_compute. discriminate.
Defined.

Lemma X4_exact_name_rules_witness :
  _get_type str_placeholder "Status" array_node = Ok (JStr "[]common.Status")
  /\ _get_type str_placeholder "Identifier" array_node = Ok (JStr "[]common.Identifier")
  /\ _get_type str_placeholder "Description" array_node = Ok (JStr "[]string").
Proof.
  exact (X4_exact_name_rules str_placeholder array_node (JStr "array") JNull
           eq_refl eq_refl).
Defined.

Lemma X5_object_reuses_name_witness :
  _get_type str_placeholder "Location" object_node = Ok (JStr "Location").
Proof.
  exact (proj2 (X5_object_reuses_name str_placeholder "Location" object_node JNull
                  eq_refl eq_refl eq_refl) eq_refl).
Defined.

Lemma X6_items_reference_witness :
  _get_type str_placeholder "Drives" (JObj items_ref_node) = Ok (JStr "[]Foo").
Proof.
  exact (proj2 (X6_items_reference str_placeholder "Drives"
                  "http://redfish.dmtf.org/schemas/v1/Foo.json#/definitions/Foo"
                  items_ref_node _ eq_refl eq_refl eq_refl eq_refl eq_refl eq_refl)
               eq_refl).
Defined.

Lemma X7_default_string_witness :
  _get_type str_placeholder "Manufacturer" string_node = Ok (JStr "string").
Proof.
  exact (X7_default_string str_placeholder "Manufacturer" string_node (JStr "string")
           JNull (JObj []) eq_refl eq_refl eq_refl eq_refl eq_refl eq_refl eq_refl
           eq_refl (or_introl eq_refl)).
Defined.

Lemma X8_resolver_failures_witness :
  _get_type str_placeholder "Count" (JArr []) = Raise AttributeError
  /\ _get_type str_placeholder "Count" (JObj tuple_items_node) = Raise AttributeError.
Proof.
  destruct (X8_resolver_failures str_placeholder "Count") as [Hnode Hitems].
  split.
  - exact (Hnode (JArr []) eq_refl).
  - exact (Hitems tuple_items_node _ I eq_refl eq_refl).
Defined.

Lemma X9_closing_steps_witness :
  (exists rest, JStr "[]int" = JStr ("[]" ++ rest))
  /\ (exists before,
        JStr (json_tag str_placeholder (JStr "int") "Members@odata.count")
        = JStr (before ++ " `json:" ++ PyStr.dquote ++ "Members@odata.count"
                ++ PyStr.dquote ++ "`")).
Proof.
  split.
  - exact (proj1 (X9_closing_steps str_placeholder "Count" array_node _ eq_refl)
                 eq_refl).
  - exact (proj2 (X9_closing_steps str_placeholder "Members@odata.count"
                    integer_node _ eq_refl) eq_refl).
Defined.

Lemma X10_resolver_total_witness :
  exists type, _get_type str_placeholder "Drives" (JObj items_ref_node) = Ok (JStr type).
Proof.
  exact (X10_resolver_total_on_shaped_nodes str_placeholder "Drives" items_ref_node
           eq_refl).
Defined.

Lemma X12_null_description_witness :
  _add_object one_line str_placeholder (mk_params "Widget" [] [] "swordfish")
    "Widget" (JObj null_described) = Raise TypeError.
Proof.
  exact (X12_null_description_fails one_line str_placeholder
           (mk_params "Widget" [] [] "swordfish") "Widget" null_described eq_refl I).
Defined.

Lemma X13_enum_members_witness :
  exists p',
    _add_enum one_line str_placeholder (mk_params "Thing" [] [] "redfish")
      "PowerState" (JObj power_state) = Ok p'
    /\ exists e,
         enums p' = ([] ++ [e])%list
         /\ classes p' = []
         /\ enum_name e = "PowerState"
         /\ map member_name (enum_members e) = [JStr "On"; JStr "Off"].
Proof.
  eexists. split; [vm_compute; reflexivity |].
  exact (X13_enum_members_verbatim one_line str_placeholder
           (mk_params "Thing" [] [] "redfish") _ "PowerState" power_state
           [JStr "On"; JStr "Off"] eq_refl eq_refl).
Defined.

Lemma X14_enum_member_comments_witness :
  exists p',
    _add_enum one_line str_placeholder (mk_params "Thing" [] [] "redfish")
      "PowerState" (JObj power_state) = Ok p'
    /\ member_text power_state "Off" = JStr "This value shall mean powered off."
    /\ member_text power_state "On" = JStr "It shall mean powered on."
    /\ exists e,
         enums p' = ([] ++ [e])%list
         /\ Forall (fun mb =>
                      forall literal,
                        member_name mb = JStr literal ->
                        _format_comment one_line str_placeholder (literal ++ "PowerState")
                          (member_text power_state literal) "shall" ""
                        = Ok (member_description mb))
                   (enum_members e).
Proof.
  eexists. split; [vm_compute; reflexivity |].
  split; [reflexivity |]. split; [reflexivity |].
  exact (X14_enum_member_comments one_line str_placeholder
           (mk_params "Thing" [] [] "redfish") _ "PowerState" power_state eq_refl).
Defined.

Lemma X15_document_order_witness :
  exists p,
    classify one_line str_placeholder "Widget" "swordfish" sample_definitions = Ok p
    /\ filter (yields_class sample_definitions) (Py.keys sample_definitions) = ["Widget"]
    /\ filter (yields_enum sample_definitions) (Py.keys sample_definitions)
       = ["PowerState"]
    /\ object_name p = "Widget"
    /\ package p = "swordfish"
    /\ map class_name (classes p)
       = filter (yields_class sample_definitions) (Py.keys sample_definitions)
    /\ map enum_name (enums p)
       = filter (yields_enum sample_definitions) (Py.keys sample_definitions).
Proof.
  eexists. split; [vm_compute; reflexivity |].
  split; [reflexivity |]. split; [reflexivity |].
  exact (X15_document_order one_line str_placeholder "Widget" "swordfish"
           sample_definitions _ eq_refl).
Defined.

Lemma X16_class_builder_witness :
  exists c,
    _add_object one_line str_placeholder (mk_params "Widget" [] [] "swordfish")
      "Widget" (JObj widget)
    = Ok (with_class (mk_params "Widget" [] [] "swordfish") c)
    /\ class_name c = "Widget"
    /\ List.length (class_attrs c) = List.length (source_properties widget).
Proof.
  exact (X16_class_builder_total one_line str_placeholder
           (mk_params "Widget" [] [] "swordfish") "Widget" widget eq_refl).
Defined.

Lemma X17_classification_total_witness :
  exists p,
    classify one_line str_placeholder "Widget" "swordfish" sample_definitions = Ok p.
Proof.
  exact (X17_classification_total one_line str_placeholder "Widget" "swordfish"
           sample_definitions eq_refl).
Defined.

Lemma X18_never_below_base_witness :
  PyStr.gt thing_url "http://redfish.dmtf.org/schemas/v1/v1_2_0/Thing.json" = false
  /\ ("http://redfish.dmtf.org/schemas/v1/v1_2_0/Thing.json" = thing_url
      \/ PyStr.gt "http://redfish.dmtf.org/schemas/v1/v1_2_0/Thing.json" thing_url = true).
Proof.
  exact (X18_never_below_base thing_url "Thing" _ (JObj thing_stub) eq_refl).
Defined.

Lemma X19_chase_is_stable_witness :
  exists canonical,
    resolve_canonical_url thing_url (JObj thing_stub) "Thing" = Ok canonical
    /\ resolve_canonical_url canonical (JObj thing_stub) "Thing" = Ok canonical.
Proof.
  exact (X19_chase_is_stable thing_url "Thing" thing_stub thing_definitions
           thing_definition thing_alternatives eq_refl eq_refl eq_refl eq_refl).
Defined.

Lemma X20_order_of_alternatives_witness :
  resolve_canonical_url thing_url (JObj thing_stub) "Thing"
  = resolve_canonical_url thing_url (JObj thing_stub_reversed) "Thing".
Proof.
  refine (X20_order_of_alternatives thing_url "Thing" thing_stub thing_definitions
            thing_definition thing_stub_reversed _ _ thing_alternatives
            (rev thing_alternatives) eq_refl eq_refl eq_refl eq_refl
            eq_refl eq_refl eq_refl eq_refl _).
  intros a. apply in_rev.
Defined.

Lemma X21_missing_definition_witness :
  resolve_canonical_url thing_url (JObj other_stub) "Thing" = Ok thing_url
  /\ resolve_canonical_url thing_url (JObj []) "Thing" = Ok thing_url.
Proof.
  split.
  - exact (X21_missing_definition thing_url "Thing" other_stub eq_refl).
  - exact (X21_missing_definition thing_url "Thing" [] I).
Defined.

Lemma X22_cut_at_first_occurrence_witness :
  _format_comment one_line str_placeholder "Widget"
    (JStr "This type shall be used to represent a widget that is used.") "used" " is"
  = Ok "// Widget is used to represent a widget that is used.".
Proof.
  destruct (X22_cut_at_first_occurrence one_line str_placeholder "Widget"
              "This type shall be used to represent a widget that is used."
              "used" " is" eq_refl eq_refl) as [i [Hi [_ [_ Hrun]]]].
  rewrite Hrun. vm_compute in Hi. inversion Hi; subst i. reflexivity.
Defined.

Lemma X23_resolver_reads_three_keys_witness :
  _get_type str_placeholder "Location" (JObj direct_ref_node)
  = _get_type str_placeholder "Location" (JObj []).
Proof.
  exact (X23_resolver_reads_three_keys str_placeholder "Location" direct_ref_node []
           eq_refl eq_refl eq_refl).
Defined.
